(** * Support portal (src/app.py): ticket lifecycle and activity log

    A shallow embedding of the Streamlit script [app.py]: the tables
    [tickets] and [ticket_notes] of the hosted database, the SMTP relay,
    the dialog [ticket_popup] with its three buttons, the three pages
    (New Ticket, Track Ticket, Staff Dashboard) and the renderer of the
    activity log.  Python [str] values are kept as their UTF-8 byte
    strings; the text typed into the tracking form's ID box is kept as a
    list of code points, because [str.isdigit] and [int] classify
    characters, not bytes. *)

From Stdlib Require Import List String Ascii ZArith NArith Bool Lia Arith.
From Stdlib Require Import Sorting.Sorted Sorting.Permutation.
Import ListNotations.
Local Open Scope string_scope.
Local Open Scope list_scope.

(** ** Python string operations used by the script *)

Module PyStr.

(** The newline character of the f-strings, [\n]. *)
Definition nl : string := String (ascii_of_nat 10) EmptyString.

(** Truthiness of a [str]: [if s:] holds exactly for a non-empty string. *)
Definition truthy (s : string) : bool :=
  match s with
  | EmptyString => false
  | String _ _ => true
  end.

(** [needle in hay]. *)
Fixpoint contains (needle hay : string) : bool :=
  if String.prefix needle hay then true
  else match hay with
       | EmptyString => false
       | String _ hay' => contains needle hay'
       end.

(** [s.replace(old, new)] for a non-empty [old]: the occurrences of [old]
    are replaced from left to right, without overlap.  [skip] counts the
    characters of a matched occurrence that are still to be dropped. *)
Fixpoint replace_from (old new : string) (skip : nat) (s : string) : string :=
  match s with
  | EmptyString => EmptyString
  | String c s' =>
      match skip with
      | S k => replace_from old new k s'
      | O =>
          if String.prefix old s
          then (new ++ replace_from old new (String.length old - 1) s')%string
          else String c (replace_from old new 0 s')
      end
  end.

Definition replace (old new s : string) : string := replace_from old new 0 s.

(** [s.split('\n', 1)[1]]: what follows the first newline ([None] stands
    for the [IndexError] of a string with no newline). *)
Fixpoint after_first_nl (s : string) : option string :=
  match s with
  | EmptyString => None
  | String c s' =>
      if Ascii.eqb c (ascii_of_nat 10) then Some s' else after_first_nl s'
  end.

(** [sep.join(xs)]. *)
Fixpoint join (sep : string) (xs : list string) : string :=
  match xs with
  | [] => EmptyString
  | [x] => x
  | x :: xs' => (x ++ sep ++ join sep xs')%string
  end.

(** [str(x)] of an optional string inside an f-string: [None] prints as
    the word None. *)
Definition fmt_opt (x : option string) : string :=
  match x with
  | Some s => s
  | None => "None"
  end.

(** Truthiness of a nullable column: [None] and the empty string are
    both false. *)
Definition truthy_opt (x : option string) : bool :=
  match x with
  | Some s => truthy s
  | None => false
  end.

(** [sorted(list(set(xs)))] on strings: insertion into a strictly
    increasing list, dropping a value that is already there. *)
Fixpoint insert_sorted (x : string) (xs : list string) : list string :=
  match xs with
  | [] => [x]
  | y :: ys =>
      match String.compare x y with
      | Lt => x :: y :: ys
      | Eq => y :: ys
      | Gt => y :: insert_sorted x ys
      end
  end.

Definition sorted_set (xs : list string) : list string :=
  fold_right insert_sorted [] xs.

Definition mem (x : string) (xs : list string) : bool :=
  existsb (String.eqb x) xs.

End PyStr.

(** ** Characters of the tracking ID

    [str.isdigit] accepts the characters whose Unicode Numeric_Type is
    Decimal or Digit; [int] parses only those of type Decimal.  For the
    blocks Basic Latin and Latin-1 Supplement (U+0000 to U+00FF) the
    classification and the upper-case mapping are written out below as
    the Unicode Character Database gives them.  For every character above
    U+00FF they are read from the interpreter's database, which is taken
    as a parameter [db]: nothing is assumed about those characters. *)

Module PyChar.

Definition codepoint := N.

Inductive numeric_type := NotNumeric | Decimal (v : Z) | Digit | Numeric.

(** The interpreter's character database above U+00FF: the numeric type
    of a character (with its value when it is a decimal digit) and the
    characters [upper] turns it into. *)
Record unicode_db := mkUnicodeDb {
  db_numeric_type : codepoint -> numeric_type;
  db_upper : codepoint -> list codepoint
}.

(** [sys.int_max_str_digits] as CPython sets it by default: [int] raises
    [ValueError] on a string of more digits. *)
Definition int_max_str_digits : N := 4300.

Section Database.
Variable db : unicode_db.

Definition numeric_type_of (c : codepoint) : numeric_type :=
  if (255 <? c)%N then db_numeric_type db c
  else if ((48 <=? c) && (c <=? 57))%N then Decimal (Z.of_N c - 48)
  else if ((c =? 178) || (c =? 179) || (c =? 185))%N then Digit
  else if ((188 <=? c) && (c <=? 190))%N then Numeric
  else NotNumeric.

Definition isdigit_char (c : codepoint) : bool :=
  match numeric_type_of c with
  | Decimal _ | Digit => true
  | _ => false
  end.

(** [s.isdigit()]: every character is a digit and there is at least one. *)
Definition isdigit (s : list codepoint) : bool :=
  match s with
  | [] => false
  | _ => forallb isdigit_char s
  end.

(** [c.upper()] for one character.  In the two blocks: the ASCII and
    Latin-1 small letters; sharp s becomes SS, the micro sign and y with
    diaeresis leave the block. *)
Definition upper_char (c : codepoint) : list codepoint :=
  if (255 <? c)%N then db_upper db c
  else if ((97 <=? c) && (c <=? 122))%N then [(c - 32)%N]
  else if (c =? 181)%N then [924%N]
  else if (c =? 223)%N then [83%N; 83%N]
  else if (c =? 255)%N then [376%N]
  else if ((224 <=? c) && (c <=? 254) && negb (c =? 247))%N then [(c - 32)%N]
  else [c].

Definition upper (s : list codepoint) : list codepoint := flat_map upper_char s.

(** The value of a string of decimal digits, [None] at a character that
    is not a decimal digit. *)
Fixpoint int_from (acc : Z) (s : list codepoint) : option Z :=
  match s with
  | [] => Some acc
  | c :: s' =>
      match numeric_type_of c with
      | Decimal v => int_from (10 * acc + v) s'
      | _ => None
      end
  end.

(** [int(s)] on a string that passed [isdigit] (so with no sign, blank or
    underscore in it): the decimal value, or [None] for the [ValueError]
    raised when the string has more than [int_max_str_digits] digits or
    holds a character that is a digit but not a decimal one. *)
Definition int (s : list codepoint) : option Z :=
  match s with
  | [] => None
  | _ =>
      if (int_max_str_digits <? N.of_nat (List.length s))%N then None
      else int_from 0 s
  end.

End Database.

End PyChar.

(** ** Data model: the rows of the two tables, the session, the relay *)

Inductive status := New | Open | Deferred | Closed.
Inductive priority := Low | Medium | High.

(** The labels the select boxes show and the columns store. *)
Definition status_label (s : status) : string :=
  match s with
  | New => "New" | Open => "Open" | Deferred => "Deferred" | Closed => "Closed"
  end.

Definition priority_label (p : priority) : string :=
  match p with
  | Low => "Low" | Medium => "Medium" | High => "High"
  end.

Definition status_eqb (a b : status) : bool :=
  match a, b with
  | New, New | Open, Open | Deferred, Deferred | Closed, Closed => true
  | _, _ => false
  end.

Definition priority_eqb (a b : priority) : bool :=
  match a, b with
  | Low, Low | Medium, Medium | High, High => true
  | _, _ => false
  end.

Definition opt_string_eqb (a b : option string) : bool :=
  match a, b with
  | Some x, Some y => String.eqb x y
  | None, None => true
  | _, _ => false
  end.

(** A row of the table [tickets]. *)
Record ticket := mkTicket {
  id : string;
  customer_name : string;
  email : string;
  description : string;
  attachment_url : option string;
  category : string;
  priority_of : priority;
  status_of : status;
  assigned_to : option string;
  created_at : Z;
  resolved_at : option Z;
  resolution_summary : option string
}.

(** A row of the table [ticket_notes]. *)
Record note := mkNote {
  ticket_id : string;
  note_text : string;
  author_email : option string;
  note_created_at : Z
}.

(** A message handed to the SMTP relay. *)
Record mail := mkMail {
  mail_to : string;
  mail_subject : string;
  mail_body : string
}.

(** [st.session_state.user]: the signed-in identity and the role entry of
    its metadata. *)
Record user := mkUser {
  user_email : string;
  user_role : option string
}.

(** What the script can change: the two tables, the messages the relay
    accepted, and the lines printed on the server's standard output. *)
Record world := mkWorld {
  tickets : list ticket;
  ticket_notes : list note;
  outbox : list mail;
  stdout : list string
}.

Definition empty_world : world := mkWorld [] [] [] [].

(** What one run of the script takes from outside: the clock and the
    relay.  [smtp m] is [None] when the session with the relay goes
    through and [Some e] when it raises the exception printed as [e]. *)
Record env := mkEnv {
  now : Z;
  smtp : mail -> option string
}.

(** What a handler puts on the page. *)
Inductive widget :=
| Error (s : string)
| Success (s : string)
| Warning (s : string)
| Write (s : string)
| Caption (s : string)
| ChatMessage (who header body : string)
| Divider
| Uncaught (exn : string).

(** ** Role helpers (lines 77-81) *)

Definition role (su : option user) : option string :=
  match su with
  | Some u => user_role u
  | None => None
  end.

Definition is_admin (su : option user) : bool := opt_string_eqb (role su) (Some "admin").
Definition is_agent (su : option user) : bool := opt_string_eqb (role su) (Some "agent").
Definition is_staff (su : option user) : bool := is_admin su || is_agent su.

(** ** Table operations of the storage client *)

Definition set_tickets (w : world) (ts : list ticket) : world :=
  mkWorld ts (ticket_notes w) (outbox w) (stdout w).

Definition insert_note (n : note) (w : world) : world :=
  mkWorld (tickets w) (ticket_notes w ++ [n]) (outbox w) (stdout w).

(** [table("tickets").update(...).eq("id", i)]: every row whose id is [i]. *)
Definition update_where_id (i : string) (f : ticket -> ticket) (ts : list ticket)
  : list ticket :=
  map (fun r => if String.eqb (id r) i then f r else r) ts.

(** The first row with a given id. *)
Definition find_ticket (i : string) (ts : list ticket) : option ticket :=
  find (fun r => String.eqb (id r) i) ts.

(** ** Email (lines 28-42) *)

Definition send_email (e : env) (to subject body : string) (w : world)
  : world * bool :=
  let m := mkMail to subject body in
  match smtp e m with
  | None =>
      (mkWorld (tickets w) (ticket_notes w) (outbox w ++ [m]) (stdout w), true)
  | Some exn =>
      (mkWorld (tickets w) (ticket_notes w) (outbox w)
         (stdout w ++ [("SMTP Error: " ++ exn)%string]), false)
  end.

(** ** log_activity (lines 84-89) *)

Definition system_prefix : string := "⚙️ SYSTEM: ".

Definition log_activity (u : user) (e : env) (tid message : string) (w : world)
  : world :=
  insert_note (mkNote tid (system_prefix ++ message)%string (Some (user_email u)) (now e)) w.

(** ** The dialog ticket_popup (lines 92-229) *)

(** The values the three edit widgets hold when a button is pressed.  The
    assignee widget is a select box for an admin and a disabled text box
    for everybody else; [assign_sel] is the value submitted for it. *)
Record form := mkForm {
  new_status_sel : status;
  new_priority_sel : priority;
  assign_sel : string
}.

(** The three buttons of the dialog with the text next to each. *)
Inductive button :=
| CloseResolve (resolution_text : string)
| SaveChanges (new_note : string)
| SendEmail (email_body : string).

(** Line 118: the assignees an admin may pick. *)
Definition staff_list (u : user) (w : world) : list string :=
  PyStr.sorted_set
    (flat_map (fun r => match assigned_to r with
                        | Some a => if PyStr.truthy a then [a] else []
                        | None => []
                        end) (tickets w)
     ++ ["Unassigned"; user_email u]).

(** Line 119. *)
Definition current_assign (u : user) (w : world) (t : ticket) : string :=
  match assigned_to t with
  | Some a => if PyStr.mem a (staff_list u w) then a else "Unassigned"
  | None => "Unassigned"
  end.

(** A select box yields one of its options: the submitted one, or the
    option at its default index when the submitted value is not among
    them. *)
Definition selectbox (options : list string) (default submitted : string) : string :=
  if PyStr.mem submitted options then submitted else default.

(** Lines 116-124. *)
Definition new_assign (u : user) (w : world) (t : ticket) (f : form) : option string :=
  if is_admin (Some u)
  then Some (selectbox (staff_list u w) (current_assign u w t) (assign_sel f))
  else assigned_to t.

(** Line 127: the test that selects the closing branch. *)
Definition closing (t : ticket) (f : form) : bool :=
  status_eqb (new_status_sel f) Closed && negb (status_eqb (status_of t) Closed).

(** Lines 131-147: the button Close & Resolve. *)
Definition close_and_resolve (u : user) (e : env) (t : ticket) (f : form)
  (resolution_text : string) (w : world) : world * list widget :=
  if PyStr.truthy resolution_text then
    let assignee := new_assign u w t f in
    let w1 := set_tickets w
      (update_where_id (id t)
         (fun r => mkTicket (id r) (customer_name r) (email r) (description r)
                     (attachment_url r) (category r)
                     (new_priority_sel f) Closed assignee
                     (created_at r) (Some (now e)) (Some resolution_text))
         (tickets w)) in
    let w2 := log_activity u e (id t)
                ("Ticket Closed. Resolution: " ++ resolution_text)%string w1 in
    let subject := ("Ticket #" ++ id t ++ " Resolved")%string in
    let body := ("Hi " ++ customer_name t ++ "," ++ PyStr.nl ++ PyStr.nl
                 ++ "Your ticket is resolved:" ++ PyStr.nl ++ resolution_text
                 ++ PyStr.nl ++ PyStr.nl ++ "Best," ++ PyStr.nl
                 ++ "Support Team")%string in
    let w3 := fst (send_email e (email t) subject body w2) in
    (w3, [Success "Resolved!"])
  else (w, [Error "Resolution required."]).

(** Lines 194-197: the change descriptions, appended one test after the
    other. *)
Definition detect_changes (t : ticket) (f : form) (assignee : option string)
  : list string :=
  let changes := [] in
  let changes :=
    if negb (status_eqb (new_status_sel f) (status_of t))
    then changes ++ [("Status: " ++ status_label (status_of t) ++ " → "
                      ++ status_label (new_status_sel f))%string]
    else changes in
  let changes :=
    if negb (priority_eqb (new_priority_sel f) (priority_of t))
    then changes ++ [("Priority: " ++ priority_label (priority_of t) ++ " → "
                      ++ priority_label (new_priority_sel f))%string]
    else changes in
  let changes :=
    if negb (opt_string_eqb assignee (assigned_to t))
    then changes ++ [("Assignee: " ++ PyStr.fmt_opt (assigned_to t) ++ " → "
                      ++ PyStr.fmt_opt assignee)%string]
    else changes in
  changes.

(** Lines 192-213: the button Save Changes. *)
Definition save_changes (u : user) (e : env) (t : ticket) (f : form)
  (new_note : string) (w : world) : world * list widget :=
  let assignee := new_assign u w t f in
  let changes := detect_changes t f assignee in
  let w1 := set_tickets w
    (update_where_id (id t)
       (fun r => mkTicket (id r) (customer_name r) (email r) (description r)
                   (attachment_url r) (category r)
                   (new_priority_sel f) (new_status_sel f) assignee
                   (created_at r) (resolved_at r) (resolution_summary r))
       (tickets w)) in
  let w2 := match changes with
            | [] => w1
            | _ => log_activity u e (id t)
                     ("Updated: " ++ PyStr.join ", " changes)%string w1
            end in
  let w3 := if PyStr.truthy new_note
            then insert_note (mkNote (id t) new_note (Some (user_email u)) (now e)) w2
            else w2 in
  (w3, [Success "Updated!"]).

(** Lines 223-229: the button Send Email of the reply tab. *)
Definition send_reply (u : user) (e : env) (t : ticket) (email_body : string)
  (w : world) : world * list widget :=
  if PyStr.truthy email_body then
    let '(w1, sent) :=
      send_email e (email t) ("Re: Ticket #" ++ id t)%string email_body w in
    if sent
    then (log_activity u e (id t)
            ("EMAIL SENT TO CUSTOMER:" ++ PyStr.nl ++ email_body)%string w1,
          [Success "Sent!"])
    else (w1, [Error "Failed."])
  else (w, []).

(** One run of the dialog with a button pressed.  The closing branch
    draws only Close & Resolve, the other branch only Save Changes; the
    reply tab is always drawn.  A button that is not drawn does nothing. *)
Definition ticket_popup (u : user) (e : env) (t : ticket) (f : form)
  (b : button) (w : world) : world * list widget :=
  match b with
  | CloseResolve resolution_text =>
      if closing t f then close_and_resolve u e t f resolution_text w else (w, [])
  | SaveChanges new_note =>
      if closing t f then (w, []) else save_changes u e t f new_note w
  | SendEmail email_body => send_reply u e t email_body w
  end.

(** ** Ordering of a query result

    [.order("created_at", desc=True)] is answered by the database; it is
    taken here as a stable insertion sort on the key, largest first. *)

Section Order.
Context {A : Type} (key : A -> Z).

Fixpoint insert_desc (x : A) (xs : list A) : list A :=
  match xs with
  | [] => [x]
  | y :: ys => if (key y <? key x)%Z then x :: y :: ys else y :: insert_desc x ys
  end.

Definition order_desc (xs : list A) : list A := fold_right insert_desc [] xs.
End Order.

(** ** The activity log as the dialog draws it (lines 158-188) *)

Section Render.
(** [strftime("%d %b %H:%M")] of a row's timestamp, or the empty string
    when the timestamp does not parse. *)
Variable fmt_time : Z -> string.

Definition render_note (n : note) : list widget :=
  let author := if PyStr.truthy_opt (author_email n)
                then PyStr.fmt_opt (author_email n) else "Unknown" in
  let t := fmt_time (note_created_at n) in
  (if PyStr.contains "SYSTEM:" (note_text n) then
     [Caption ("⚙️ " ++ t ++ " - "
               ++ PyStr.replace "⚙️ SYSTEM:" "" (note_text n))%string]
   else if PyStr.contains "EMAIL SENT" (note_text n) then
     [ChatMessage "assistant" ("**Email Out (" ++ t ++ "):**")%string
        (match PyStr.after_first_nl (note_text n) with
         | Some rest => rest
         | None => note_text n
         end)]
   else
     [ChatMessage "user" ("**" ++ author ++ "** (" ++ t ++ "):")%string
        (note_text n)])
  ++ [Divider].

Definition render_log (t : ticket) (w : world) : list widget :=
  match order_desc note_created_at
          (filter (fun n => String.eqb (ticket_id n) (id t)) (ticket_notes w)) with
  | [] => [Caption "No history yet."]
  | ns => flat_map render_note ns
  end.
End Render.

(** The three ways the renderer draws an entry. *)
Inductive kind := SystemEntry | EmailOut | UserNote.

(** The branch [render_note] takes, by its two containment tests. *)
Definition kind_of (text : string) : kind :=
  if PyStr.contains "SYSTEM:" text then SystemEntry
  else if PyStr.contains "EMAIL SENT" text then EmailOut
  else UserNote.

(** The kind a drawn entry shows: a caption is the system style, the
    assistant's chat bubble the email style, the user's bubble a note. *)
Definition drawn_as (ws : list widget) : option kind :=
  match ws with
  | Caption _ :: _ => Some SystemEntry
  | ChatMessage who _ _ :: _ =>
      if String.eqb who "assistant" then Some EmailOut
      else if String.eqb who "user" then Some UserNote else None
  | _ => None
  end.

(** ** Page New Ticket (lines 237-252) *)

(** Modelled from the spec: the table declaration of [tickets] is not in
    the repository; the spec gives a ticket a unique id, so an insert
    whose id is already stored is refused by the table and the script
    stops at the storage client's exception. *)
Definition insert_ticket (t : ticket) (w : world) : option world :=
  match find_ticket (id t) (tickets w) with
  | Some _ => None
  | None => Some (set_tickets w (tickets w ++ [t]))
  end.

(** [t_id] is the draw [str(uuid.uuid4())[:8].upper()]. *)
Definition new_ticket (e : env) (t_id name mail_addr cat : string) (pri : priority)
  (msg : string) (w : world) : world * list widget :=
  match insert_ticket
          (mkTicket t_id name mail_addr msg None cat pri New None (now e) None None)
          w with
  | None => (w, [Uncaught "APIError"])
  | Some w1 =>
      let w2 := fst (send_email e mail_addr ("Ticket #" ++ t_id)%string "Received." w1) in
      (w2, [Success ("Created #" ++ t_id)%string])
  end.

(** ** Page Track Ticket (lines 254-274) *)

(** The columns of a row the tracking function returns that the page
    reads. *)
Record tracked := mkTracked {
  tracked_status : string;
  tracked_resolution_summary : option string
}.

(** What a run of the page did: the calls made to the tracking function
    and what was put on the page. *)
Record track_result := mkTrackResult {
  lookups : list (Z * string);
  shown : list widget
}.

Section Track.
(** The interpreter's character database above U+00FF. *)
Variable db : PyChar.unicode_db.
(** The server-side function [public_track_ticket]. *)
Variable public_track_ticket : Z -> string -> list tracked.

Definition track_ticket (id_text : list PyChar.codepoint) (tem : string)
  : track_result :=
  let tid := PyChar.upper db id_text in
  if match tid with [] => true | _ => false end || negb (PyStr.truthy tem) then
    mkTrackResult [] [Error "Please enter both Ticket ID and Email."]
  else if negb (PyChar.isdigit db tid) then
    mkTrackResult [] [Error "Ticket ID must be a number."]
  else
    match PyChar.int db tid with
    | None => mkTrackResult [] [Uncaught "ValueError"]
    | Some n =>
        match public_track_ticket n tem with
        | t :: _ =>
            mkTrackResult [(n, tem)]
              (Write ("**Status:** " ++ tracked_status t)%string
               :: if PyStr.truthy_opt (tracked_resolution_summary t)
                  then [Success ("Resolution: "
                                 ++ PyStr.fmt_opt (tracked_resolution_summary t))%string]
                  else [])
        | [] =>
            mkTrackResult [(n, tem)]
              [Warning "No ticket found for that ID and email."]
        end
    end.
End Track.

(** ** Page Staff Dashboard (lines 276-282) *)

(** The filter [assigned_to.is.null,assigned_to.eq.<email>] under [or_]. *)
Definition unassigned_or_mine (mine : string) (t : ticket) : bool :=
  match assigned_to t with
  | None => true
  | Some a => String.eqb a mine
  end.

Definition dashboard_query (su : option user) (w : world) : list ticket :=
  let rows :=
    match su with
    | Some u => if is_agent su then filter (unassigned_or_mine (user_email u)) (tickets w)
                else tickets w
    | None => tickets w
    end in
  order_desc created_at rows.

(** ** Runs of the application *)

(** What a visitor or a member of staff does in one run of the script:
    submit the form of New Ticket, or pick row [row] of the dashboard
    table and press a button of the dialog. *)
Inductive event :=
| Submit (e : env) (t_id name mail_addr cat : string) (pri : priority) (msg : string)
| Manage (u : user) (e : env) (row : nat) (f : form) (b : button).

Definition step (w : world) (ev : event) : world :=
  match ev with
  | Submit e t_id name mail_addr cat pri msg =>
      fst (new_ticket e t_id name mail_addr cat pri msg w)
  | Manage u e row f b =>
      if is_staff (Some u) then
        match nth_error (dashboard_query (Some u) w) row with
        | Some t => fst (ticket_popup u e t f b w)
        | None => w
        end
      else w
  end.

Definition run (evs : list event) : world := fold_left step evs empty_world.

(** ** Vocabulary of the properties *)

(** A ticket's resolution is recorded: the summary is a non-empty string
    and the resolution timestamp is set. *)
Definition resolution_recorded (t : ticket) : bool :=
  PyStr.truthy_opt (resolution_summary t)
  && match resolved_at t with Some _ => true | None => false end.

(** [needle] occurs somewhere in [s]. *)
Definition occurs_in (needle s : string) : Prop :=
  exists before after : string, s = (before ++ needle ++ after)%string.

(** The rows a handler added to [ticket_notes]. *)
Definition notes_added (w w' : world) : list note :=
  skipn (List.length (ticket_notes w)) (ticket_notes w').

(** The page tells the user that something failed. *)
Definition reports_failure (ws : list widget) : bool :=
  existsb (fun x => match x with
                    | Error _ | Warning _ | Uncaught _ => true
                    | _ => false
                    end) ws.

(** Largest creation time first. *)
Definition newest_first (ts : list ticket) : Prop :=
  StronglySorted (fun a b => (created_at b <= created_at a)%Z) ts.

(** The change descriptions as the specification words them: the three
    fields in the order status, priority, assignee, each compared on its
    own and written as field, colon, old value, arrow, new value. *)
Definition spec_description (field old new : string) : string :=
  (field ++ ": " ++ old ++ " → " ++ new)%string.

Definition spec_changes (t : ticket) (s : status) (p : priority)
  (a : option string) : list string :=
  flat_map
    (fun c : string * bool * string * string =>
       let '(field, same, old, new) := c in
       if same then [] else [spec_description field old new])
    [ ("Status", status_eqb s (status_of t),
       status_label (status_of t), status_label s);
      ("Priority", priority_eqb p (priority_of t),
       priority_label (priority_of t), priority_label p);
      ("Assignee", opt_string_eqb a (assigned_to t),
       PyStr.fmt_opt (assigned_to t), PyStr.fmt_opt a) ].

(** The log rows the specification gives a standard edit: one system row
    joining the descriptions when there are any, then one row with the
    note under the acting identity when a note was supplied. *)
Definition spec_edit_log (u : user) (e : env) (t : ticket)
  (changes : list string) (new_note : string) : list note :=
  (match changes with
   | [] => []
   | _ => [mkNote (id t) (system_prefix ++ "Updated: " ++ PyStr.join ", " changes)%string
             (Some (user_email u)) (now e)]
   end)
  ++ (match new_note with
      | EmptyString => []
      | _ => [mkNote (id t) new_note (Some (user_email u)) (now e)]
      end).


(** Ids are unique and every closed row has its resolution recorded. *)
Definition lifecycle_inv (w : world) : Prop :=
  NoDup (map id (tickets w))
  /\ Forall (fun t => status_of t = Closed -> resolution_recorded t = true) (tickets w).

(** *** Sample data *)

Definition relay_up : env := mkEnv 1000 (fun _ => None).
Definition relay_down : env := mkEnv 2000 (fun _ => Some "Connection refused").

Definition agent_user : user := mkUser "agent@example.com" (Some "agent").
Definition admin_user : user := mkUser "admin@example.com" (Some "admin").

(** A customer files a ticket. *)
Definition filed : list event :=
  [Submit relay_up "1A2B3C4D" "Ann" "a@x.com" "Data" Medium "Export fails"].

(** The ticket as it is stored after [filed]. *)
Definition filed_ticket : ticket :=
  mkTicket "1A2B3C4D" "Ann" "a@x.com" "Export fails" None "Data" Medium New None
    1000 None None.

(** ... an agent closes it with a resolution ... *)
Definition filed_closed : list event :=
  filed ++ [Manage agent_user relay_up 0 (mkForm Closed Medium "") (CloseResolve "fixed")].

Definition closed_ticket : ticket :=
  mkTicket "1A2B3C4D" "Ann" "a@x.com" "Export fails" None "Data" Medium Closed None
    1000 (Some 1000%Z) (Some "fixed").

(** ... and then saves the dialog with the status box put back on Open. *)
Definition filed_closed_reopened : list event :=
  filed_closed ++ [Manage agent_user relay_up 0 (mkForm Open Medium "") (SaveChanges "")].

Definition reopened_ticket : ticket :=
  mkTicket "1A2B3C4D" "Ann" "a@x.com" "Export fails" None "Data" Medium Open None
    1000 (Some 1000%Z) (Some "fixed").

(** *** The claims that the code does not meet, as they are worded *)

(** Status is Closed exactly when the resolution is recorded, on every
    ticket of every run. *)
Definition closed_iff_resolved : Prop :=
  forall (evs : list event) (t : ticket),
    In t (tickets (run evs)) ->
    (status_of t = Closed <-> resolution_recorded t = true).

(** A closing transition whose email is not delivered keeps the closed
    row and the log row and reports the failure on the page. *)
Definition closing_reports_delivery_failure : Prop :=
  forall (u : user) (e : env) (t : ticket) (f : form) (text : string) (w : world),
    closing t f = true ->
    PyStr.truthy text = true ->
    (forall m, smtp e m <> None) ->
    find_ticket (id t) (tickets w) = Some t ->
    let '(w', ws) := ticket_popup u e t f (CloseResolve text) w in
    (exists r, find_ticket (id t) (tickets w') = Some r /\ status_of r = Closed
               /\ resolution_recorded r = true)
    /\ notes_added w w' <> []
    /\ reports_failure ws = true.





(** The rows written by [log_activity] carry no author. *)
Definition system_entries_have_no_author : Prop :=
  forall (u : user) (e : env) (i message : string) (w : world),
    Forall (fun n => author_email n = None)
      (notes_added w (log_activity u e i message w)).

(** ** The rest of the script *)

(** Line 19: [base_url.rstrip("/")] drops every slash at the end. *)
Fixpoint rstrip_slash (s : string) : string :=
  match s with
  | EmptyString => EmptyString
  | String c s' =>
      match rstrip_slash s' with
      | EmptyString => if Ascii.eqb c "/" then EmptyString else String c EmptyString
      | r => String c r
      end
  end.

(** Line 19: the URL handed to [create_client]. *)
Definition clean_url (base_url : string) : string :=
  (rstrip_slash base_url ++ "/")%string.

(** Lines 232-233: the entries of the sidebar menu. *)
Definition menu (su : option user) : list string :=
  ["New Ticket"; "Track Ticket"]
  ++ (if is_staff su then ["Staff Dashboard"] else []).



(** Lines 283-290: the three tiles above the table, drawn only when the
    query returned rows: tickets with status New, tickets with priority
    High, all tickets. *)
Definition dashboard_metrics (rows : list ticket) : option (nat * nat * nat) :=
  match rows with
  | [] => None
  | _ =>
      Some (List.length (filter (fun t => status_eqb (status_of t) New) rows),
            List.length (filter (fun t => priority_eqb (priority_of t) High) rows),
            List.length rows)
  end.

(** Lines 45-50: the reply templates, in the order of the dictionary. *)
Definition CANNED_RESPONSES : list (string * string) :=
  [ ("Select a template...", EmptyString);
    ("Ticket Received",
     ("Hi," ++ PyStr.nl ++ PyStr.nl
      ++ "We have received your ticket and are looking into it."
      ++ PyStr.nl ++ PyStr.nl ++ "Best," ++ PyStr.nl ++ "Support Team")%string);
    ("More Info Needed",
     ("Hi," ++ PyStr.nl ++ PyStr.nl
      ++ "Could you please provide a screenshot or more details about the error?"
      ++ PyStr.nl ++ PyStr.nl ++ "Best," ++ PyStr.nl ++ "Support Team")%string);
    ("Password Reset",
     ("Hi," ++ PyStr.nl ++ PyStr.nl
      ++ "To reset your password, please go to the login page and click 'Forgot Password'."
      ++ PyStr.nl ++ PyStr.nl ++ "Best," ++ PyStr.nl ++ "Support Team")%string) ].

(** [CANNED_RESPONSES[tmpl]], [None] for the [KeyError] of a missing key. *)
Definition canned (tmpl : string) : option string :=
  match find (fun kv => String.eqb (fst kv) tmpl) CANNED_RESPONSES with
  | Some kv => Some (snd kv)
  | None => None
  end.

(** Line 219: the text the message box starts with. *)
Definition body_val (tmpl : string) : option string :=
  if negb (String.eqb tmpl "Select a template...") then canned tmpl
  else Some EmptyString.

(** The marker the renderer cuts out of a system row (line 176). *)
Definition system_marker : string := "⚙️ SYSTEM:".

(** A database that knows no digit and no letter above U+00FF.  It only
    serves to run the page on sample IDs typed in ASCII, whose outcome
    does not depend on the database. *)
Definition latin1_only : PyChar.unicode_db :=
  PyChar.mkUnicodeDb (fun _ => PyChar.NotNumeric) (fun c => [c]).

(** An ASCII letter, small or capital. *)
Definition ascii_letter (c : PyChar.codepoint) : bool :=
  (((65 <=? c) && (c <=? 90)) || ((97 <=? c) && (c <=? 122)))%N.

(** An ASCII decimal digit. *)
Definition ascii_digit (c : PyChar.codepoint) : bool :=
  ((48 <=? c) && (c <=? 57))%N.

(** The columns of a ticket that no handler writes after the insert. *)
Definition same_identity (t t' : ticket) : Prop :=
  id t' = id t /\ customer_name t' = customer_name t /\ email t' = email t
  /\ description t' = description t /\ attachment_url t' = attachment_url t
  /\ category t' = category t /\ created_at t' = created_at t.

(** The subjects of the three mails the script sends about a ticket. *)
Definition subjects_of (t : ticket) : list string :=
  [("Ticket #" ++ id t)%string;
   ("Ticket #" ++ id t ++ " Resolved")%string;
   ("Re: Ticket #" ++ id t)%string].

(** Every mail the relay accepted went to the customer of a stored
    ticket, under one of that ticket's three subjects. *)
Definition outbox_inv (w : world) : Prop :=
  forall m, In m (outbox w) ->
    exists t, In t (tickets w) /\ mail_to m = email t /\ In (mail_subject m) (subjects_of t).

(** Every log row belongs to a stored ticket. *)
Definition notes_inv (w : world) : Prop :=
  forall n, In n (ticket_notes w) -> exists t, In t (tickets w) /\ id t = ticket_id n.

(** Every resolution summary stored on a ticket is the text of a
    "Ticket Closed" row of that ticket's log. *)
Definition resolution_logged (w : world) : Prop :=
  forall t s, In t (tickets w) -> resolution_summary t = Some s ->
    exists n, In n (ticket_notes w) /\ ticket_id n = id t
              /\ note_text n = (system_prefix ++ "Ticket Closed. Resolution: " ++ s)%string.

(** More sample data: a second ticket, already assigned, and an admin's
    untouched dialog on the first one. *)
Definition two_tickets : world :=
  mkWorld
    [filed_ticket;
     mkTicket "9F8E7D6C" "Bob" "b@x.com" "Login loops" None "Other" High Open
       (Some "agent@example.com") 1500 None None]
    [] [] [].

Definition untouched_admin_form : form := mkForm New Medium "Unassigned".

(** Case analysis on the comparisons of code points in a goal. *)
Ltac decide_tests :=
  repeat match goal with
         | |- context [(?a <? ?b)%N] => destruct (N.ltb_spec a b)
         | |- context [(?a <=? ?b)%N] => destruct (N.leb_spec a b)
         | |- context [(?a =? ?b)%N] => destruct (N.eqb_spec a b)
         | H : context [(?a <=? ?b)%N] |- _ => destruct (N.leb_spec a b)
         end; simpl in *; try lia; try discriminate; auto.

(** * Properties *)

(** ** Strings *)

Lemma prefix_iff (p s : string) :
  String.prefix p s = true <-> exists rest, s = (p ++ rest)%string.
Proof.
  revert s; induction p as [|c p IH]; intros s; simpl.
  - destruct s; split; eauto.
  - destruct s as [|d s]; simpl.
    + split; [discriminate | intros [rest H]; discriminate].
    + destruct (ascii_dec c d) as [->|Hcd].
      * rewrite IH; split; intros [rest H]; exists rest; congruence.
      * split; [discriminate | intros [rest H]; congruence].
Qed.

Lemma contains_unfold (needle s : string) :
  PyStr.contains needle s =
  if String.prefix needle s then true
  else match s with
       | EmptyString => false
       | String _ s' => PyStr.contains needle s'
       end.
Proof. destruct s; reflexivity. Qed.

Lemma contains_iff (needle s : string) :
  PyStr.contains needle s = true <-> occurs_in needle s.
Proof.
  unfold occurs_in; induction s as [|c s IH]; rewrite contains_unfold.
  - destruct (String.prefix needle "") eqn:Hp.
    + split; [intros _ | reflexivity].
      apply prefix_iff in Hp as [rest Hp].
      exists EmptyString, rest; exact Hp.
    + split; [discriminate | intros (b & a & H)].
      destruct b; [|discriminate].
      assert (String.prefix needle "" = true) by (apply prefix_iff; eauto).
      congruence.
  - destruct (String.prefix needle (String c s)) eqn:Hp.
    + split; [intros _ | reflexivity].
      apply prefix_iff in Hp as [rest Hp].
      exists EmptyString, rest; exact Hp.
    + rewrite IH; split.
      * intros (b & a & ->). exists (String c b), a; reflexivity.
      * intros (b & a & H). destruct b as [|c' b]; simpl in H.
        -- assert (String.prefix needle (String c s) = true)
             by (apply prefix_iff; eauto).
           congruence.
        -- injection H as _ ->. eauto.
Qed.

Lemma append_assoc (a b c : string) : ((a ++ b) ++ c = a ++ (b ++ c))%string.
Proof. induction a as [|ch a IH]; simpl; [reflexivity | now rewrite IH]. Qed.

Lemma append_nil_r (a : string) : (a ++ "")%string = a.
Proof. induction a as [|ch a IH]; simpl; [reflexivity | now rewrite IH]. Qed.

Lemma truthy_iff (s : string) : PyStr.truthy s = true <-> s <> EmptyString.
Proof. destruct s; simpl; split; congruence. Qed.

Lemma system_prefix_contains (s : string) :
  PyStr.contains "SYSTEM:" (system_prefix ++ s) = true.
Proof.
  apply contains_iff.
  exists "⚙️ ", (" " ++ s)%string. reflexivity.
Qed.

Lemma drawn_as_kind_of (fmt_time : Z -> string) (n : note) :
  drawn_as (render_note fmt_time n) = Some (kind_of (note_text n)).
Proof.
  unfold render_note, kind_of.
  destruct (PyStr.contains "SYSTEM:" (note_text n)); [reflexivity|].
  destruct (PyStr.contains "EMAIL SENT" (note_text n)); reflexivity.
Qed.

(** ** Equality tests *)

Lemma status_eqb_eq (a b : status) : status_eqb a b = true <-> a = b.
Proof. destruct a, b; simpl; split; congruence. Qed.

Lemma priority_eqb_eq (a b : priority) : priority_eqb a b = true <-> a = b.
Proof. destruct a, b; simpl; split; congruence. Qed.

Lemma opt_string_eqb_eq (a b : option string) : opt_string_eqb a b = true <-> a = b.
Proof.
  destruct a, b; simpl; try (split; congruence).
  rewrite String.eqb_eq; split; congruence.
Qed.

(** ** Ordering of a query result *)

Section OrderFacts.
Context {A : Type} (key : A -> Z).

Lemma insert_desc_perm (x : A) (xs : list A) :
  Permutation (insert_desc key x xs) (x :: xs).
Proof.
  induction xs as [|y ys IH]; simpl; [reflexivity|].
  destruct (key y <? key x)%Z; [reflexivity|].
  rewrite IH. apply perm_swap.
Qed.

Lemma order_desc_perm (xs : list A) : Permutation (order_desc key xs) xs.
Proof.
  induction xs as [|x xs IH]; simpl; [reflexivity|].
  rewrite insert_desc_perm. now constructor.
Qed.

Lemma order_desc_In (x : A) (xs : list A) : In x (order_desc key xs) <-> In x xs.
Proof.
  split; apply Permutation_in;
    [apply order_desc_perm | apply Permutation_sym, order_desc_perm].
Qed.

Lemma insert_desc_sorted (x : A) (xs : list A) :
  StronglySorted (fun a b => (key b <= key a)%Z) xs ->
  StronglySorted (fun a b => (key b <= key a)%Z) (insert_desc key x xs).
Proof.
  induction 1 as [|y ys Hs IH Hy]; simpl.
  - repeat constructor.
  - destruct (key y <? key x)%Z eqn:Hlt.
    + apply Z.ltb_lt in Hlt. constructor.
      * now constructor.
      * constructor; [lia|].
        eapply Forall_impl; [|exact Hy]. simpl; intros; lia.
    + apply Z.ltb_ge in Hlt. constructor; [exact IH|].
      eapply Permutation_Forall;
        [apply Permutation_sym, insert_desc_perm|].
      constructor; [exact Hlt | exact Hy].
Qed.

Lemma order_desc_sorted (xs : list A) :
  StronglySorted (fun a b => (key b <= key a)%Z) (order_desc key xs).
Proof.
  induction xs as [|x xs IH]; simpl; [constructor|].
  now apply insert_desc_sorted.
Qed.
End OrderFacts.

(** ** Tables *)

Lemma update_where_id_ids (i : string) (f : ticket -> ticket) (ts : list ticket) :
  (forall r, id (f r) = id r) ->
  map id (update_where_id i f ts) = map id ts.
Proof.
  intros Hf; unfold update_where_id; rewrite map_map.
  apply map_ext; intros r. destruct (String.eqb (id r) i); auto.
Qed.

Lemma find_ticket_none (i : string) (ts : list ticket) :
  find_ticket i ts = None -> ~ In i (map id ts).
Proof.
  unfold find_ticket; intros H Hin.
  apply in_map_iff in Hin as (r & <- & Hr).
  eapply find_none in H; [|exact Hr].
  simpl in H. rewrite String.eqb_refl in H. discriminate.
Qed.

Lemma find_ticket_update (i : string) (f : ticket -> ticket) (ts : list ticket) (t : ticket) :
  (forall r, id (f r) = id r) ->
  find_ticket i ts = Some t ->
  find_ticket i (update_where_id i f ts) = Some (f t).
Proof.
  intros Hf; unfold find_ticket, update_where_id.
  induction ts as [|r ts IH]; simpl; [discriminate|].
  destruct (String.eqb (id r) i) eqn:Hr.
  - rewrite Hf, Hr. congruence.
  - rewrite Hr. exact IH.
Qed.

Lemma unique_id_row (ts : list ticket) (r t : ticket) :
  NoDup (map id ts) -> In r ts -> In t ts -> id r = id t -> r = t.
Proof.
  induction ts as [|x ts IH]; simpl; [tauto|].
  intros Hnd [->|Hr] [->|Ht] Heq; inversion Hnd; subst; auto.
  - exfalso. apply H1. rewrite Heq. now apply in_map.
  - exfalso. apply H1. rewrite <- Heq. now apply in_map.
Qed.

Lemma dashboard_query_In (su : option user) (w : world) (t : ticket) :
  In t (dashboard_query su w) -> In t (tickets w).
Proof.
  unfold dashboard_query; rewrite order_desc_In.
  destruct su as [u|]; [destruct (is_agent (Some u))|]; auto.
  intros H; apply filter_In in H; tauto.
Qed.

(** ** What the handlers leave alone *)

Lemma send_email_tickets e to subject body w :
  tickets (fst (send_email e to subject body w)) = tickets w.
Proof. unfold send_email; destruct (smtp e _); reflexivity. Qed.

Lemma send_email_notes e to subject body w :
  ticket_notes (fst (send_email e to subject body w)) = ticket_notes w.
Proof. unfold send_email; destruct (smtp e _); reflexivity. Qed.

Lemma send_reply_tickets u e t body w :
  tickets (fst (send_reply u e t body w)) = tickets w.
Proof.
  unfold send_reply, send_email.
  destruct (PyStr.truthy body); [|reflexivity].
  destruct (smtp e _); reflexivity.
Qed.

Lemma notes_added_app (w w' : world) (ns : list note) :
  ticket_notes w' = ticket_notes w ++ ns -> notes_added w w' = ns.
Proof.
  unfold notes_added; intros ->.
  rewrite skipn_app, skipn_all, Nat.sub_diag; reflexivity.
Qed.

(** ** The lifecycle invariant *)

Lemma lifecycle_inv_empty : lifecycle_inv empty_world.
Proof. split; constructor. Qed.

Lemma new_ticket_inv e t_id name mail_addr cat pri msg w :
  lifecycle_inv w -> lifecycle_inv (fst (new_ticket e t_id name mail_addr cat pri msg w)).
Proof.
  intros [Hnd Hall]; unfold new_ticket, insert_ticket; simpl.
  destruct (find_ticket t_id (tickets w)) eqn:Hfind; simpl; [now split|].
  split; rewrite send_email_tickets; simpl.
  - rewrite map_app; simpl.
    apply Permutation_NoDup with (l := t_id :: map id (tickets w)).
    + apply Permutation_cons_append.
    + constructor; [now apply find_ticket_none | exact Hnd].
  - apply Forall_app; split; [exact Hall|].
    constructor; [simpl; discriminate | constructor].
Qed.

Lemma close_and_resolve_inv u e t f text w :
  lifecycle_inv w -> lifecycle_inv (fst (close_and_resolve u e t f text w)).
Proof.
  intros [Hnd Hall]; unfold close_and_resolve.
  destruct (PyStr.truthy text) eqn:Htext; simpl; [|now split].
  split; rewrite send_email_tickets; simpl.
  - rewrite update_where_id_ids; auto.
  - unfold update_where_id. apply Forall_map.
    eapply Forall_impl; [|exact Hall]; intros r Hr.
    destruct (String.eqb (id r) (id t)); [|exact Hr].
    intros _; unfold resolution_recorded; simpl. now rewrite Htext.
Qed.

Lemma save_changes_inv u e t f new_note w :
  lifecycle_inv w -> In t (tickets w) -> closing t f = false ->
  lifecycle_inv (fst (save_changes u e t f new_note w)).
Proof.
  intros [Hnd Hall] Hin Hclosing; unfold save_changes; simpl.
  assert (Heq : forall w1 : world,
             tickets (if PyStr.truthy new_note
                      then insert_note (mkNote (id t) new_note
                                          (Some (user_email u)) (now e)) w1
                      else w1) = tickets w1)
    by (intros; destruct (PyStr.truthy new_note); reflexivity).
  unfold lifecycle_inv; rewrite Heq.
  assert (Heq' : forall (cs : list string) msg (w1 : world),
             tickets (match cs with
                      | [] => w1
                      | _ => log_activity u e (id t) msg w1
                      end) = tickets w1)
    by (intros [|? ?]; reflexivity).
  rewrite Heq'; simpl. split.
  - rewrite update_where_id_ids; auto.
  - unfold update_where_id. apply Forall_map.
    rewrite Forall_forall in Hall |- *; intros r Hr.
    destruct (String.eqb (id r) (id t)) eqn:Hid; [|now apply Hall].
    apply String.eqb_eq in Hid.
    assert (r = t) by (eapply unique_id_row; eauto); subst r.
    simpl; intros Hsel. unfold resolution_recorded; simpl.
    apply (Hall t Hin).
    unfold closing in Hclosing. rewrite Hsel in Hclosing; simpl in Hclosing.
    destruct (status_of t); simpl in Hclosing; congruence.
Qed.

Lemma ticket_popup_inv u e t f b w :
  lifecycle_inv w -> In t (tickets w) ->
  lifecycle_inv (fst (ticket_popup u e t f b w)).
Proof.
  intros Hinv Hin; destruct b as [text|new_note|body]; simpl.
  - destruct (closing t f); [now apply close_and_resolve_inv | exact Hinv].
  - destruct (closing t f) eqn:Hc; [exact Hinv | now apply save_changes_inv].
  - destruct Hinv as [Hnd Hall]; split; rewrite send_reply_tickets; assumption.
Qed.

Lemma step_inv (w : world) (ev : event) : lifecycle_inv w -> lifecycle_inv (step w ev).
Proof.
  intros Hinv; destruct ev as [e t_id name mail_addr cat pri msg | u e row f b]; simpl.
  - now apply new_ticket_inv.
  - destruct (is_staff (Some u)); [|exact Hinv].
    destruct (nth_error (dashboard_query (Some u) w) row) as [t|] eqn:Hrow; [|exact Hinv].
    apply ticket_popup_inv; [exact Hinv|].
    eapply dashboard_query_In, nth_error_In; exact Hrow.
Qed.

Lemma run_inv (evs : list event) : lifecycle_inv (run evs).
Proof.
  unfold run. generalize lifecycle_inv_empty. generalize empty_world.
  induction evs as [|ev evs IH]; intros w Hinv; simpl; [exact Hinv|].
  apply IH, step_inv, Hinv.
Qed.

(** ** C1: status Closed and the resolution fields *)

(** C1 (as amended): on every ticket of every run of the application
    (tickets filed through New Ticket, edited and closed through the
    dialog), status Closed implies that the resolution summary is
    non-empty and the resolution timestamp is set. *)
Theorem closed_ticket_is_resolved (evs : list event) (t : ticket) :
  In t (tickets (run evs)) ->
  status_of t = Closed ->
  resolution_recorded t = true.
Proof.
  intros Hin. destruct (run_inv evs) as [_ Hall].
  rewrite Forall_forall in Hall. exact (Hall t Hin).
Qed.

Lemma closed_ticket_is_resolved_witness :
  In closed_ticket (tickets (run filed_closed))
  /\ status_of closed_ticket = Closed
  /\ resolution_recorded closed_ticket = true.
Proof.
  split; [left; reflexivity|]. split; [reflexivity|].
  apply (closed_ticket_is_resolved filed_closed);
    [left; reflexivity | reflexivity].
Defined.

(** C1 fails from right to left: a standard edit of a closed ticket that
    selects Open stores Open and keeps both resolution fields. *)
Lemma reopened_ticket_keeps_resolution :
  In reopened_ticket (tickets (run filed_closed_reopened))
  /\ status_of reopened_ticket <> Closed
  /\ resolution_recorded reopened_ticket = true
  /\ ~ closed_iff_resolved.
Proof.
  assert (Hin : In reopened_ticket (tickets (run filed_closed_reopened)))
    by (left; reflexivity).
  repeat split; try exact Hin; try discriminate.
  intros Hclaim.
  destruct (Hclaim filed_closed_reopened reopened_ticket Hin) as [_ H].
  discriminate (H eq_refl).
Qed.

(** ** C2: closing without a resolution *)

(** C2: when the stored status is not Closed and Closed is selected,
    pressing Close & Resolve with an empty resolution changes nothing (no
    column of any ticket, no log row, no email, no diagnostic) and shows
    the error "Resolution required.". *)
Theorem close_without_resolution_aborts
  (u : user) (e : env) (t : ticket) (f : form) (w : world) :
  status_of t <> Closed ->
  new_status_sel f = Closed ->
  ticket_popup u e t f (CloseResolve "") w = (w, [Error "Resolution required."]).
Proof.
  intros Hopen Hsel; simpl. unfold closing; rewrite Hsel.
  destruct (status_of t) eqn:Hstored; simpl; solve [reflexivity | congruence].
Qed.

Lemma close_without_resolution_aborts_witness :
  status_of filed_ticket <> Closed
  /\ new_status_sel (mkForm Closed Medium "") = Closed
  /\ ticket_popup agent_user relay_up filed_ticket (mkForm Closed Medium "")
       (CloseResolve "") (run filed)
     = (run filed, [Error "Resolution required."]).
Proof.
  split; [discriminate|]. split; [reflexivity|].
  apply (close_without_resolution_aborts agent_user relay_up filed_ticket
           (mkForm Closed Medium "") (run filed));
    [discriminate | reflexivity].
Defined.

(** ** C3: a closing transition whose email is not delivered *)

(** C3 (as amended): when Close & Resolve is pressed with a non-empty
    resolution and the relay refuses the resolution email, the stored
    ticket is Closed with the resolution timestamp and summary set, the
    system row "Ticket Closed. Resolution: ..." is in the log, nothing is
    undone and nothing is sent again; the failure goes to the sender's
    diagnostic output only, and the page shows the same "Resolved!" as
    after a delivered email. *)
Theorem closing_survives_delivery_failure
  (u : user) (e : env) (t stored : ticket) (f : form) (text : string) (w : world) :
  closing t f = true ->
  PyStr.truthy text = true ->
  (forall m, smtp e m <> None) ->
  find_ticket (id t) (tickets w) = Some stored ->
  let w' := fst (ticket_popup u e t f (CloseResolve text) w) in
  let ws := snd (ticket_popup u e t f (CloseResolve text) w) in
  (exists r, find_ticket (id t) (tickets w') = Some r
             /\ status_of r = Closed
             /\ resolved_at r = Some (now e)
             /\ resolution_summary r = Some text
             /\ resolution_recorded r = true)
  /\ notes_added w w'
     = [mkNote (id t) (system_prefix ++ "Ticket Closed. Resolution: " ++ text)%string
          (Some (user_email u)) (now e)]
  /\ outbox w' = outbox w
  /\ (exists exn, stdout w' = stdout w ++ [("SMTP Error: " ++ exn)%string])
  /\ ws = [Success "Resolved!"]
  /\ ws = snd (ticket_popup u (mkEnv (now e) (fun _ => None)) t f (CloseResolve text) w).
Proof.
  intros Hclosing Htext Hdown Hstored; simpl.
  rewrite Hclosing; unfold close_and_resolve; rewrite Htext.
  unfold send_email; simpl.
  match goal with |- context [smtp e ?m] =>
    destruct (smtp e m) as [exn|] eqn:Hsmtp; [|exfalso; exact (Hdown _ Hsmtp)]
  end.
  simpl. repeat split.
  - eexists; split.
    + apply find_ticket_update; [reflexivity | exact Hstored].
    + simpl; unfold resolution_recorded; simpl; rewrite Htext; auto.
  - apply notes_added_app; reflexivity.
  - exists exn; reflexivity.
Qed.

Lemma closing_survives_delivery_failure_witness :
  let w := run filed in
  let f := mkForm Closed Medium "" in
  let w' := fst (ticket_popup agent_user relay_down filed_ticket f (CloseResolve "fixed") w) in
  find_ticket "1A2B3C4D" (tickets w') =
    Some (mkTicket "1A2B3C4D" "Ann" "a@x.com" "Export fails" None "Data" Medium
            Closed None 1000 (Some 2000%Z) (Some "fixed"))
  /\ outbox w' = outbox w.
Proof.
  pose proof (closing_survives_delivery_failure agent_user relay_down filed_ticket
                filed_ticket (mkForm Closed Medium "") "fixed" (run filed)
                eq_refl eq_refl (fun m H => ltac:(discriminate H)) eq_refl) as H.
  split; [reflexivity | exact (proj1 (proj2 (proj2 H)))].
Defined.

(** C3 fails where it says the failure is reported: the handler drops the
    result of [send_email] and shows the success message. *)
Lemma closing_failure_not_reported :
  snd (ticket_popup agent_user relay_down filed_ticket (mkForm Closed Medium "")
         (CloseResolve "fixed") (run filed)) = [Success "Resolved!"]
  /\ reports_failure
       (snd (ticket_popup agent_user relay_down filed_ticket (mkForm Closed Medium "")
               (CloseResolve "fixed") (run filed))) = false
  /\ ~ closing_reports_delivery_failure.
Proof.
  split; [reflexivity|]. split; [reflexivity|].
  intros Hclaim.
  specialize (Hclaim agent_user relay_down filed_ticket (mkForm Closed Medium "")
                "fixed" (run filed) eq_refl eq_refl
                (fun m H => ltac:(discriminate H)) eq_refl).
  vm_compute in Hclaim.
  destruct Hclaim as (_ & _ & H). discriminate H.
Qed.

(** ** C4: the standard edit *)

Lemma detect_changes_spec (t : ticket) (f : form) (a : option string) :
  detect_changes t f a = spec_changes t (new_status_sel f) (new_priority_sel f) a.
Proof.
  unfold detect_changes, spec_changes, spec_description; simpl.
  destruct (status_eqb (new_status_sel f) (status_of t)),
           (priority_eqb (new_priority_sel f) (priority_of t)),
           (opt_string_eqb a (assigned_to t)); reflexivity.
Qed.


Lemma save_changes_notes
  (u : user) (e : env) (t : ticket) (f : form) (new_note : string) (w : world) :
  notes_added w (fst (save_changes u e t f new_note w))
  = spec_edit_log u e t
      (spec_changes t (new_status_sel f) (new_priority_sel f) (new_assign u w t f))
      new_note.
Proof.
  apply notes_added_app. unfold save_changes, spec_edit_log.
  rewrite detect_changes_spec.
  destruct (spec_changes _ _ _ _) as [|c cs], new_note as [|ch rest]; simpl;
    rewrite <- ?app_assoc, ?app_nil_r; reflexivity.
Qed.






(** An admin's edit that moves only the assignee logs one description;
    the stored null prints as the word None. *)
Example admin_reassignment_log :
  notes_added (run filed)
    (fst (ticket_popup admin_user relay_up filed_ticket
            (mkForm New Medium "admin@example.com") (SaveChanges "") (run filed)))
  = [mkNote "1A2B3C4D" "⚙️ SYSTEM: Updated: Assignee: None → admin@example.com"
       (Some "admin@example.com") 1000].
Proof. reflexivity. Qed.

(** ** C5: the assignee under a non-admin actor *)

Lemma new_assign_non_admin (u : user) (w : world) (t : ticket) (f : form) :
  is_admin (Some u) = false -> new_assign u w t f = assigned_to t.
Proof. unfold new_assign; intros ->; reflexivity. Qed.

Lemma closing_assign_irrelevant (t : ticket) (f : form) (submitted : string) :
  closing t (mkForm (new_status_sel f) (new_priority_sel f) submitted) = closing t f.
Proof. reflexivity. Qed.

(** C5: for an actor who is not an admin, whatever button is pressed and
    whatever value is submitted for the assignee, the assignee stored for
    the ticket after the run is the one stored before it, and the run
    with any other submitted assignee gives the same tables, mails,
    diagnostics and page. *)
Theorem non_admin_cannot_reassign
  (u : user) (e : env) (t : ticket) (f : form) (b : button) (w : world) :
  is_admin (Some u) = false ->
  find_ticket (id t) (tickets w) = Some t ->
  (exists r, find_ticket (id t) (tickets (fst (ticket_popup u e t f b w))) = Some r
             /\ assigned_to r = assigned_to t)
  /\ forall submitted : string,
       ticket_popup u e t (mkForm (new_status_sel f) (new_priority_sel f) submitted) b w
       = ticket_popup u e t f b w.
Proof.
  intros Hrole Hstored; split.
  - destruct b as [text|new_note|body]; simpl.
    + destruct (closing t f); [|eauto].
      unfold close_and_resolve.
      destruct (PyStr.truthy text); [|eauto].
      cbn [fst]; rewrite send_email_tickets; simpl.
      eexists; split; [apply find_ticket_update; [reflexivity | exact Hstored]|].
      simpl. now apply new_assign_non_admin.
    + destruct (closing t f); [eauto|].
      unfold save_changes.
      destruct (detect_changes _ _ _), (PyStr.truthy new_note); simpl;
        (eexists; split; [apply find_ticket_update; [reflexivity | exact Hstored]|]);
        simpl; now apply new_assign_non_admin.
    + rewrite send_reply_tickets; eauto.
  - intros submitted.
    destruct b as [text|new_note|body]; unfold ticket_popup;
      rewrite ?closing_assign_irrelevant.
    + destruct (closing t f); [|reflexivity].
      unfold close_and_resolve. rewrite !new_assign_non_admin by exact Hrole.
      reflexivity.
    + destruct (closing t f); [reflexivity|].
      unfold save_changes, detect_changes.
      rewrite !new_assign_non_admin by exact Hrole. reflexivity.
    + reflexivity.
Qed.

Lemma non_admin_cannot_reassign_witness :
  is_admin (Some agent_user) = false
  /\ find_ticket "1A2B3C4D"
       (tickets (fst (ticket_popup agent_user relay_up filed_ticket
                        (mkForm Open High "mallory@example.com")
                        (SaveChanges "") (run filed))))
     = Some (mkTicket "1A2B3C4D" "Ann" "a@x.com" "Export fails" None "Data" High
               Open None 1000 None None)
  /\ ticket_popup agent_user relay_up filed_ticket
       (mkForm Open High "someone@example.com") (SaveChanges "") (run filed)
     = ticket_popup agent_user relay_up filed_ticket
         (mkForm Open High "mallory@example.com") (SaveChanges "") (run filed).
Proof.
  split; [reflexivity|]. split; [reflexivity|].
  exact (proj2 (non_admin_cannot_reassign agent_user relay_up filed_ticket
                  (mkForm Open High "mallory@example.com") (SaveChanges "")
                  (run filed) eq_refl eq_refl) "someone@example.com").
Defined.

(** ** C6: the dashboard query *)

Lemma unassigned_or_mine_iff (mine : string) (t : ticket) :
  unassigned_or_mine mine t = true <->
  assigned_to t = None \/ assigned_to t = Some mine.
Proof.
  unfold unassigned_or_mine; destruct (assigned_to t) as [a|].
  - rewrite String.eqb_eq; split; [intros ->; now right|].
    intros [H|H]; congruence.
  - split; auto.
Qed.

(** C6: for an agent the dashboard query returns exactly the tickets
    whose assignee is null or the agent's own email, for an admin it
    returns all tickets, and in both cases the rows come newest first. *)
Theorem dashboard_query_rows (mine : string) (w : world) :
  let agent_rows := dashboard_query (Some (mkUser mine (Some "agent"))) w in
  let admin_rows := dashboard_query (Some (mkUser mine (Some "admin"))) w in
  (forall t, In t agent_rows <->
             In t (tickets w)
             /\ (assigned_to t = None \/ assigned_to t = Some mine))
  /\ Permutation agent_rows (filter (unassigned_or_mine mine) (tickets w))
  /\ Permutation admin_rows (tickets w)
  /\ newest_first agent_rows
  /\ newest_first admin_rows.
Proof.
  unfold dashboard_query, newest_first; simpl.
  split; [|repeat split; solve [apply order_desc_perm | apply order_desc_sorted]].
  intros t. rewrite order_desc_In, filter_In, unassigned_or_mine_iff. reflexivity.
Qed.

(** Three tickets filed at different times, the second one assigned to
    somebody else: the agent sees the other two, newest first. *)
Example dashboard_query_agent_sample :
  let t1 := mkTicket "A" "" "" "" None "" Low New None 10 None None in
  let t2 := mkTicket "B" "" "" "" None "" Low New (Some "bob@example.com") 20 None None in
  let t3 := mkTicket "C" "" "" "" None "" Low New (Some "agent@example.com") 30 None None in
  let w := mkWorld [t1; t2; t3] [] [] [] in
  dashboard_query (Some agent_user) w = [t3; t1]
  /\ dashboard_query (Some admin_user) w = [t3; t2; t1].
Proof. split; reflexivity. Qed.

(** ** C7: the tracking lookup *)

Section TrackFacts.
Variable db : PyChar.unicode_db.
Variable public_track_ticket : Z -> string -> list tracked.

Lemma track_missing_field (id_text : list PyChar.codepoint) (tem : string) :
  PyChar.upper db id_text = [] \/ tem = EmptyString ->
  track_ticket db public_track_ticket id_text tem
  = mkTrackResult [] [Error "Please enter both Ticket ID and Email."].
Proof.
  unfold track_ticket; intros [-> | ->]; [reflexivity|].
  destruct (PyChar.upper db id_text); reflexivity.
Qed.

Lemma track_not_a_number (id_text : list PyChar.codepoint) (tem : string) :
  PyChar.upper db id_text <> [] -> tem <> EmptyString ->
  PyChar.isdigit db (PyChar.upper db id_text) = false ->
  track_ticket db public_track_ticket id_text tem
  = mkTrackResult [] [Error "Ticket ID must be a number."].
Proof.
  unfold track_ticket; intros Hid Hem ->.
  destruct (PyChar.upper db id_text); [congruence|].
  destruct tem; [congruence | reflexivity].
Qed.

Lemma track_no_match (id_text : list PyChar.codepoint) (tem : string) (n : Z) :
  tem <> EmptyString ->
  PyChar.isdigit db (PyChar.upper db id_text) = true ->
  PyChar.int db (PyChar.upper db id_text) = Some n ->
  public_track_ticket n tem = [] ->
  track_ticket db public_track_ticket id_text tem
  = mkTrackResult [(n, tem)] [Warning "No ticket found for that ID and email."].
Proof.
  unfold track_ticket; intros Hem Hdigit -> ->. rewrite Hdigit.
  destruct (PyChar.upper db id_text); [discriminate|].
  destruct tem; [congruence | reflexivity].
Qed.

(** C7, where the code departs from it: superscript two passes
    [isdigit], so no validation error is shown; [int] then raises
    [ValueError], so the page shows neither the validation error nor
    the neutral "no ticket found", and no lookup is made. *)
Theorem track_superscript_digit_raises :
  let r := track_ticket db public_track_ticket [178%N] "a@x.com" in
  PyChar.isdigit db (PyChar.upper db [178%N]) = true
  /\ PyChar.int db (PyChar.upper db [178%N]) = None
  /\ r = mkTrackResult [] [Uncaught "ValueError"]
  /\ shown r <> [Error "Ticket ID must be a number."]
  /\ shown r <> [Warning "No ticket found for that ID and email."].
Proof. repeat split; discriminate. Qed.
End TrackFacts.

(** Ticket 42 filed from a@x.com: a wrong email and a wrong id get the
    same page. *)
Example track_wrong_email_or_id (db : PyChar.unicode_db) :
  let rpc := fun (n : Z) (m : string) =>
               if ((n =? 42)%Z && String.eqb m "a@x.com")%bool
               then [mkTracked "Open" None] else [] in
  shown (track_ticket db rpc [52; 50]%N "a@x.com") = [Write "**Status:** Open"]
  /\ shown (track_ticket db rpc [52; 50]%N "wrong@x.com")
     = shown (track_ticket db rpc [57; 57]%N "a@x.com")
  /\ shown (track_ticket db rpc [57; 57]%N "a@x.com")
     = [Warning "No ticket found for that ID and email."].
Proof. repeat split. Qed.

(** ** The renderer's three styles *)

Lemma kind_of_system_prefix (s : string) : kind_of (system_prefix ++ s) = SystemEntry.
Proof. unfold kind_of. now rewrite system_prefix_contains. Qed.

Lemma notes_added_none (w w' : world) :
  ticket_notes w' = ticket_notes w -> notes_added w w' = [].
Proof. intros H; apply notes_added_app; now rewrite app_nil_r. Qed.

(** ** C8: the reply to the customer *)

Lemma send_reply_empty u e t w : send_reply u e t "" w = (w, []).
Proof. reflexivity. Qed.

Lemma send_reply_delivered u e t body w :
  PyStr.truthy body = true ->
  smtp e (mkMail (email t) ("Re: Ticket #" ++ id t) body) = None ->
  notes_added w (fst (send_reply u e t body w))
  = [mkNote (id t) (system_prefix ++ "EMAIL SENT TO CUSTOMER:" ++ PyStr.nl ++ body)
       (Some (user_email u)) (now e)]
  /\ snd (send_reply u e t body w) = [Success "Sent!"].
Proof.
  intros Hbody Hsmtp; unfold send_reply, send_email; rewrite Hbody, Hsmtp; simpl.
  split; [apply notes_added_app|]; reflexivity.
Qed.

Lemma send_reply_failed u e t body w exn :
  PyStr.truthy body = true ->
  smtp e (mkMail (email t) ("Re: Ticket #" ++ id t) body) = Some exn ->
  notes_added w (fst (send_reply u e t body w)) = []
  /\ snd (send_reply u e t body w) = [Error "Failed."].
Proof.
  intros Hbody Hsmtp; unfold send_reply, send_email; rewrite Hbody, Hsmtp; simpl.
  split; [apply notes_added_none|]; reflexivity.
Qed.

(** C8, where the code departs from it: the row a delivered reply adds
    is written through [log_activity], so its text starts with the
    system prefix and the renderer, which tests "SYSTEM:" first, draws it
    in the system style; no row written by the reply button is ever drawn
    in the email style. *)
Theorem reply_entry_drawn_as_system
  (fmt_time : Z -> string) (u : user) (e : env) (t : ticket) (f : form)
  (body : string) (w : world) :
  Forall (fun n => drawn_as (render_note fmt_time n) = Some SystemEntry)
    (notes_added w (fst (ticket_popup u e t f (SendEmail body) w)))
  /\ notes_added (run filed)
       (fst (ticket_popup agent_user relay_up filed_ticket (mkForm New Medium "")
               (SendEmail "Hello") (run filed)))
     = [mkNote "1A2B3C4D"
          ("⚙️ SYSTEM: EMAIL SENT TO CUSTOMER:" ++ PyStr.nl ++ "Hello")
          (Some "agent@example.com") 1000]
  /\ render_note fmt_time
       (mkNote "1A2B3C4D"
          ("⚙️ SYSTEM: EMAIL SENT TO CUSTOMER:" ++ PyStr.nl ++ "Hello")
          (Some "agent@example.com") 1000)
     = [Caption ("⚙️ " ++ fmt_time 1000%Z ++ " -  EMAIL SENT TO CUSTOMER:"
                 ++ PyStr.nl ++ "Hello"); Divider].
Proof.
  split; [|split; reflexivity].
  simpl. destruct (PyStr.truthy body) eqn:Hbody.
  - destruct (smtp e (mkMail (email t) ("Re: Ticket #" ++ id t) body)) as [exn|] eqn:Hsmtp.
    + rewrite (proj1 (send_reply_failed u e t body w exn Hbody Hsmtp)). constructor.
    + rewrite (proj1 (send_reply_delivered u e t body w Hbody Hsmtp)).
      constructor; [|constructor].
      rewrite drawn_as_kind_of. f_equal.
  - unfold send_reply; rewrite Hbody. rewrite notes_added_none by reflexivity.
    constructor.
Qed.

(** ** C9: the author of a system row *)

Lemma log_activity_added u e i message w :
  notes_added w (log_activity u e i message w)
  = [mkNote i (system_prefix ++ message) (Some (user_email u)) (now e)].
Proof. apply notes_added_app; reflexivity. Qed.

(** C9 (as amended): every row the dialog writes to the log, the system
    rows written through [log_activity] and the rows holding a staff note
    alike, carries the acting staff member's email as its author; no row
    is written with a null author. *)
Theorem log_rows_carry_the_actor
  (u : user) (e : env) (t : ticket) (f : form) (b : button) (w : world) :
  Forall (fun n => author_email n = Some (user_email u))
    (notes_added w (fst (ticket_popup u e t f b w)))
  /\ forall i message : string,
       Forall (fun n => author_email n = Some (user_email u)
                        /\ kind_of (note_text n) = SystemEntry)
         (notes_added w (log_activity u e i message w)).
Proof.
  split.
  - destruct b as [text|new_note|body]; simpl.
    + destruct (closing t f); [|rewrite notes_added_none by reflexivity; constructor].
      unfold close_and_resolve.
      destruct (PyStr.truthy text);
        [|rewrite notes_added_none by reflexivity; constructor].
      cbn [fst]. erewrite notes_added_app
        by (rewrite send_email_notes; reflexivity).
      repeat constructor.
    + destruct (closing t f) eqn:Hc;
        [rewrite notes_added_none by reflexivity; constructor|].
      rewrite save_changes_notes. unfold spec_edit_log.
      destruct (spec_changes _ _ _ _), new_note; repeat constructor.
    + destruct (PyStr.truthy body) eqn:Hbody.
      * destruct (smtp e (mkMail (email t) ("Re: Ticket #" ++ id t) body))
          as [exn|] eqn:Hsmtp.
        -- rewrite (proj1 (send_reply_failed u e t body w exn Hbody Hsmtp)).
           constructor.
        -- rewrite (proj1 (send_reply_delivered u e t body w Hbody Hsmtp)).
           repeat constructor.
      * unfold send_reply; rewrite Hbody.
        rewrite notes_added_none by reflexivity. constructor.
  - intros i message. rewrite log_activity_added.
    constructor; [|constructor]. split; [reflexivity|].
    apply kind_of_system_prefix.
Qed.

(** C9 fails: the system row of a closing transition is stored with the
    email of the agent who closed the ticket. *)
Lemma system_row_has_author :
  notes_added (run filed) (run filed_closed)
  = [mkNote "1A2B3C4D" "⚙️ SYSTEM: Ticket Closed. Resolution: fixed"
       (Some "agent@example.com") 1000]
  /\ ~ system_entries_have_no_author.
Proof.
  split; [reflexivity|].
  intros Hclaim.
  specialize (Hclaim agent_user relay_up "1A2B3C4D"
                "Ticket Closed. Resolution: fixed"%string (run filed)).
  rewrite log_activity_added in Hclaim.
  inversion Hclaim as [|? ? Hauthor _]. discriminate Hauthor.
Qed.

(** ** C10: the kind of a log row at render time *)

(** C10: the renderer decides the style of a row by two containment
    tests in a fixed order: a text in which "SYSTEM:" occurs anywhere is
    drawn in the system style; otherwise a text in which "EMAIL SENT"
    occurs is drawn in the email style; otherwise the row is drawn as a
    user note.  So a note typed by staff in which "SYSTEM:" occurs is
    stored as typed under the staff identity and drawn in the system
    style. *)
Theorem log_kind_by_containment (fmt_time : Z -> string) :
  (forall n : note,
      (occurs_in "SYSTEM:" (note_text n) ->
       drawn_as (render_note fmt_time n) = Some SystemEntry)
      /\ (~ occurs_in "SYSTEM:" (note_text n) ->
          occurs_in "EMAIL SENT" (note_text n) ->
          drawn_as (render_note fmt_time n) = Some EmailOut)
      /\ (~ occurs_in "SYSTEM:" (note_text n) ->
          ~ occurs_in "EMAIL SENT" (note_text n) ->
          drawn_as (render_note fmt_time n) = Some UserNote))
  /\ (forall (u : user) (e : env) (t : ticket) (f : form) (typed : string) (w : world),
         closing t f = false ->
         occurs_in "SYSTEM:" typed ->
         exists earlier,
           notes_added w (fst (ticket_popup u e t f (SaveChanges typed) w))
           = earlier ++ [mkNote (id t) typed (Some (user_email u)) (now e)]
           /\ drawn_as (render_note fmt_time
                          (mkNote (id t) typed (Some (user_email u)) (now e)))
              = Some SystemEntry).
Proof.
  assert (Hkind : forall n : note,
             (occurs_in "SYSTEM:" (note_text n) ->
              drawn_as (render_note fmt_time n) = Some SystemEntry)
             /\ (~ occurs_in "SYSTEM:" (note_text n) ->
                 occurs_in "EMAIL SENT" (note_text n) ->
                 drawn_as (render_note fmt_time n) = Some EmailOut)
             /\ (~ occurs_in "SYSTEM:" (note_text n) ->
                 ~ occurs_in "EMAIL SENT" (note_text n) ->
                 drawn_as (render_note fmt_time n) = Some UserNote)).
  { intros n. rewrite drawn_as_kind_of. unfold kind_of.
    rewrite <- !contains_iff.
    destruct (PyStr.contains "SYSTEM:" (note_text n)),
             (PyStr.contains "EMAIL SENT" (note_text n));
      repeat split; intros; congruence. }
  split; [exact Hkind|].
  intros u e t f typed w Hc Hocc.
  assert (Hne : exists ch rest, typed = String ch rest).
  { destruct typed as [|ch rest]; [|eauto].
    destruct Hocc as (b & a & H). destruct b; discriminate H. }
  destruct Hne as (ch & rest & Htyped).
  exists (match spec_changes t (new_status_sel f) (new_priority_sel f)
                  (new_assign u w t f) with
          | [] => []
          | cs => [mkNote (id t) (system_prefix ++ "Updated: " ++ PyStr.join ", " cs)
                     (Some (user_email u)) (now e)]
          end).
  split.
  - unfold ticket_popup. rewrite Hc, save_changes_notes. unfold spec_edit_log.
    rewrite Htyped. destruct (spec_changes _ _ _ _); reflexivity.
  - now apply (Hkind (mkNote (id t) typed (Some (user_email u)) (now e))).
Qed.

Lemma log_kind_by_containment_witness :
  closing filed_ticket (mkForm New Medium "") = false
  /\ occurs_in "SYSTEM:" "SYSTEM: rebooted the server"
  /\ drawn_as (render_note (fun _ => EmptyString)
                 (mkNote "1A2B3C4D" "SYSTEM: rebooted the server"
                    (Some "agent@example.com") 1000))
     = Some SystemEntry.
Proof.
  assert (Hocc : occurs_in "SYSTEM:" "SYSTEM: rebooted the server")
    by (exists EmptyString, " rebooted the server"%string; reflexivity).
  split; [reflexivity|]. split; [exact Hocc|].
  destruct (proj2 (log_kind_by_containment (fun _ => EmptyString))
              agent_user relay_up filed_ticket (mkForm New Medium "")
              "SYSTEM: rebooted the server"%string (run filed) eq_refl Hocc)
    as (earlier & _ & Hdrawn).
  exact Hdrawn.
Defined.

(** A note that mentions an email is drawn in the email style, and a
    plain note as a user note. *)
Example render_note_samples :
  drawn_as (render_note (fun _ => EmptyString)
              (mkNote "1A2B3C4D" "EMAIL SENT yesterday" (Some "agent@example.com") 5))
  = Some EmailOut
  /\ render_note (fun _ => "03 Nov 17:26"%string)
       (mkNote "1A2B3C4D" "called the customer" None 5)
     = [ChatMessage "user" "**Unknown** (03 Nov 17:26):" "called the customer"; Divider].
Proof. split; reflexivity. Qed.

(** * Further properties of the script *)

(** ** The client URL (lines 17-20) *)

Lemma rstrip_slash_app_slash (s : string) :
  rstrip_slash (s ++ "/") = rstrip_slash s.
Proof.
  induction s as [|c s IH]; [reflexivity|].
  simpl. rewrite IH. reflexivity.
Qed.

Lemma rstrip_slash_no_final_slash (s c : string) :
  rstrip_slash s <> (c ++ "/")%string.
Proof.
  revert c; induction s as [|ch s IH]; intros c; simpl.
  - destruct c; discriminate.
  - destruct (rstrip_slash s) as [|d r] eqn:Hr.
    + destruct (Ascii.eqb ch "/") eqn:Hch.
      * destruct c; discriminate.
      * destruct c as [|c0 c]; simpl.
        -- intros H; injection H as ->. discriminate Hch.
        -- intros H; injection H as _ H. destruct c; discriminate H.
    + destruct c as [|c0 c]; simpl; [discriminate|].
      intros H; injection H as _ H. exact (IH c H).
Qed.

Lemma rstrip_slash_idem (s : string) :
  rstrip_slash (rstrip_slash s) = rstrip_slash s.
Proof.
  induction s as [|c s IH]; [reflexivity|].
  simpl. destruct (rstrip_slash s) as [|d r] eqn:Hr.
  - destruct (Ascii.eqb c "/") eqn:Hc; [reflexivity|].
    simpl. rewrite Hc. reflexivity.
  - change (rstrip_slash (String c (String d r))) with
      (match rstrip_slash (String d r) with
       | EmptyString => if Ascii.eqb c "/" then EmptyString else String c EmptyString
       | r0 => String c r0
       end).
    rewrite IH. reflexivity.
Qed.

(** X1: the URL given to the client ends in exactly one slash, however
    many slashes the configured URL ends in: it is some text that does
    not end in a slash followed by one slash; a trailing slash more or
    less in the configuration makes no difference, and cleaning a clean
    URL changes nothing. *)
Theorem clean_url_one_final_slash (base_url : string) :
  (exists core, clean_url base_url = (core ++ "/")%string
                /\ forall c, core <> (c ++ "/")%string)
  /\ clean_url (base_url ++ "/") = clean_url base_url
  /\ clean_url (clean_url base_url) = clean_url base_url.
Proof.
  unfold clean_url; repeat split.
  - exists (rstrip_slash base_url); split; [reflexivity|].
    intros c; apply rstrip_slash_no_final_slash.
  - now rewrite rstrip_slash_app_slash.
  - now rewrite rstrip_slash_app_slash, rstrip_slash_idem.
Qed.

Example clean_url_samples :
  clean_url "https://x.supabase.co" = "https://x.supabase.co/"
  /\ clean_url "https://x.supabase.co///" = "https://x.supabase.co/"
  /\ clean_url "" = "/".
Proof. repeat split. Qed.

(** ** The role gate and the menu (lines 77-81, 232-233) *)

(** X2: the menu always offers New Ticket and Track Ticket, and it
    offers Staff Dashboard exactly when somebody is signed in whose role
    is admin or agent; nobody is admin and agent at once. *)
Theorem menu_gate (su : option user) :
  In "New Ticket" (menu su)
  /\ In "Track Ticket" (menu su)
  /\ (In "Staff Dashboard" (menu su) <->
      exists u, su = Some u
                /\ (user_role u = Some "admin" \/ user_role u = Some "agent"))
  /\ is_admin su && is_agent su = false.
Proof.
  unfold menu, is_staff, is_admin, is_agent, role.
  split; [left; reflexivity|]. split; [right; left; reflexivity|].
  destruct su as [[mail [r|]]|]; simpl.
  - destruct (String.eqb r "admin") eqn:Hadmin; simpl.
    + apply String.eqb_eq in Hadmin; subst r. split; [|reflexivity].
      split; [intros _; eexists; split; [reflexivity | now left] | intros _; auto].
    + destruct (String.eqb r "agent") eqn:Hagent; simpl.
      * apply String.eqb_eq in Hagent; subst r. split; [|reflexivity].
        split; [intros _; eexists; split; [reflexivity | now right] | intros _; auto].
      * split; [|reflexivity]. split.
        -- intros [H|[H|[]]]; discriminate H.
        -- intros (u & Hu & [Hr|Hr]); injection Hu as <-; simpl in Hr;
             injection Hr as ->; simpl in *; discriminate.
  - split; [|reflexivity]. split.
    + intros [H|[H|[]]]; discriminate H.
    + intros (u & Hu & [Hr|Hr]); injection Hu as <-; discriminate Hr.
  - split; [|reflexivity]. split.
    + intros [H|[H|[]]]; discriminate H.
    + intros (u & Hu & _); discriminate Hu.
Qed.

(** ** The assignee list of an admin (lines 116-120) *)

Lemma insert_sorted_In (z x : string) (xs : list string) :
  In z (PyStr.insert_sorted x xs) <-> z = x \/ In z xs.
Proof.
  induction xs as [|y ys IH]; simpl; [intuition congruence|].
  destruct (String.compare x y) eqn:Hc; simpl.
  - apply String.compare_eq_iff in Hc; subst y. intuition congruence.
  - intuition congruence.
  - rewrite IH. intuition congruence.
Qed.

Lemma sorted_set_In (z : string) (xs : list string) :
  In z (PyStr.sorted_set xs) <-> In z xs.
Proof.
  unfold PyStr.sorted_set; induction xs as [|x xs IH]; simpl; [tauto|].
  rewrite insert_sorted_In, IH. intuition congruence.
Qed.

Lemma insert_sorted_Sorted (x : string) (xs : list string) :
  Sorted (fun a b => String.compare a b = Lt) xs ->
  Sorted (fun a b => String.compare a b = Lt) (PyStr.insert_sorted x xs).
Proof.
  induction 1 as [|y ys Hs IH Hhd]; simpl; [repeat constructor|].
  destruct (String.compare x y) eqn:Hc.
  - now constructor.
  - constructor; [now constructor | now constructor].
  - constructor; [exact IH|].
    assert (Hyx : String.compare y x = Lt)
      by (rewrite String.compare_antisym, Hc; reflexivity).
    destruct ys as [|z zs]; simpl; [now constructor|].
    inversion Hhd; subst.
    destruct (String.compare x z); now constructor.
Qed.

Lemma sorted_set_Sorted (xs : list string) :
  Sorted (fun a b => String.compare a b = Lt) (PyStr.sorted_set xs).
Proof.
  unfold PyStr.sorted_set; induction xs as [|x xs IH]; simpl; [constructor|].
  now apply insert_sorted_Sorted.
Qed.

Lemma mem_In (x : string) (xs : list string) : PyStr.mem x xs = true <-> In x xs.
Proof.
  unfold PyStr.mem; rewrite existsb_exists; split.
  - intros (y & Hy & Heq). apply String.eqb_eq in Heq; now subst.
  - intros H; exists x; split; [exact H | apply String.eqb_refl].
Qed.


Lemma staff_list_In (u : user) (w : world) (s : string) :
  In s (staff_list u w) <->
  s = "Unassigned" \/ s = user_email u
  \/ exists t, In t (tickets w) /\ assigned_to t = Some s /\ s <> EmptyString.
Proof.
  unfold staff_list. rewrite sorted_set_In, in_app_iff, in_flat_map. simpl. split.
  - intros [(t & Ht & Hs)|[H|[H|[]]]]; auto.
    right; right; exists t. destruct (assigned_to t) as [a|]; [|destruct Hs].
    destruct (PyStr.truthy a) eqn:Ha; [|destruct Hs].
    destruct Hs as [->|[]]. repeat split; auto. now apply truthy_iff.
  - intros [->|[->|(t & Ht & Hs & Hne)]]; auto.
    left; exists t; split; [exact Ht|]. rewrite Hs.
    apply truthy_iff in Hne; rewrite Hne. now left.
Qed.

Lemma current_assign_In (u : user) (w : world) (t : ticket) :
  In (current_assign u w t) (staff_list u w).
Proof.
  unfold current_assign.
  destruct (assigned_to t) as [a|]; [destruct (PyStr.mem a (staff_list u w)) eqn:Hm|].
  - now apply mem_In.
  - apply staff_list_In; auto.
  - apply staff_list_In; auto.
Qed.

(** X3: the assignee list offered to an admin holds the word Unassigned,
    the admin's own email and every non-empty assignee stored on a
    ticket, and nothing else; it is strictly increasing, so no value is
    listed twice. *)
Theorem staff_list_contents (u : user) (w : world) :
  (forall s, In s (staff_list u w) <->
             s = "Unassigned" \/ s = user_email u
             \/ exists t, In t (tickets w) /\ assigned_to t = Some s
                          /\ s <> EmptyString)
  /\ Sorted (fun a b => String.compare a b = Lt) (staff_list u w).
Proof.
  split; [intros s; apply staff_list_In | apply sorted_set_Sorted].
Qed.



(** ** What one run of the dialog does to the tables and the relay *)

Lemma update_where_id_same (i : string) (ts : list ticket) :
  update_where_id i (fun r => r) ts = ts.
Proof.
  unfold update_where_id; induction ts as [|r ts IH]; simpl; [reflexivity|].
  rewrite IH. destruct (String.eqb (id r) i); reflexivity.
Qed.

Lemma save_changes_tickets u e t f new_note w :
  tickets (fst (save_changes u e t f new_note w))
  = update_where_id (id t)
      (fun r => mkTicket (id r) (customer_name r) (email r) (description r)
                  (attachment_url r) (category r)
                  (new_priority_sel f) (new_status_sel f) (new_assign u w t f)
                  (created_at r) (resolved_at r) (resolution_summary r))
      (tickets w).
Proof.
  unfold save_changes.
  destruct (detect_changes _ _ _), (PyStr.truthy new_note); reflexivity.
Qed.

Lemma save_changes_outbox u e t f new_note w :
  outbox (fst (save_changes u e t f new_note w)) = outbox w.
Proof.
  unfold save_changes.
  destruct (detect_changes _ _ _), (PyStr.truthy new_note); reflexivity.
Qed.

Lemma save_changes_notes_app u e t f new_note w :
  ticket_notes (fst (save_changes u e t f new_note w))
  = ticket_notes w
    ++ spec_edit_log u e t
         (spec_changes t (new_status_sel f) (new_priority_sel f) (new_assign u w t f))
         new_note.
Proof.
  unfold save_changes, spec_edit_log. rewrite detect_changes_spec.
  destruct (spec_changes _ _ _ _) as [|c cs], new_note as [|ch rest]; simpl;
    rewrite <- ?app_assoc, ?app_nil_r; reflexivity.
Qed.

(** The shape of every run of the dialog: rows are rewritten in place
    under the ticket's id, log rows and mails are only added. *)
Lemma ticket_popup_shape (u : user) (e : env) (t : ticket) (f : form)
  (b : button) (w : world) :
  let w' := fst (ticket_popup u e t f b w) in
  (exists g, tickets w' = update_where_id (id t) g (tickets w)
             /\ forall r, same_identity r (g r)
                          /\ (resolution_recorded r = true ->
                              resolution_recorded (g r) = true))
  /\ (exists ns, ticket_notes w' = ticket_notes w ++ ns
                 /\ Forall (fun n => ticket_id n = id t) ns
                 /\ List.length ns <= 2)
  /\ (exists ms, outbox w' = outbox w ++ ms
                 /\ Forall (fun m => mail_to m = email t
                                     /\ In (mail_subject m) (subjects_of t)) ms
                 /\ List.length ms <= 1).
Proof.
  assert (Hnone : forall w0 : world,
             (exists g, tickets w0 = update_where_id (id t) g (tickets w0)
                        /\ forall r, same_identity r (g r)
                                     /\ (resolution_recorded r = true ->
                                         resolution_recorded (g r) = true))
             /\ (exists ns, ticket_notes w0 = ticket_notes w0 ++ ns
                            /\ Forall (fun n => ticket_id n = id t) ns
                            /\ List.length ns <= 2)
             /\ (exists ms, outbox w0 = outbox w0 ++ ms
                            /\ Forall (fun m => mail_to m = email t
                                                /\ In (mail_subject m) (subjects_of t)) ms
                            /\ List.length ms <= 1)).
  { intros w0; repeat split.
    - exists (fun r => r); split; [now rewrite update_where_id_same|].
      intros r; unfold same_identity; tauto.
    - exists []; rewrite app_nil_r; repeat split; auto.
    - exists []; rewrite app_nil_r; repeat split; auto. }
  destruct b as [text|new_note|body]; simpl.
  - destruct (closing t f); [|apply Hnone].
    unfold close_and_resolve.
    destruct (PyStr.truthy text) eqn:Htext; [|apply Hnone].
    unfold send_email; simpl.
    split; [|split].
    + eexists; split.
      * destruct (smtp e _); simpl; reflexivity.
      * intros r; unfold same_identity, resolution_recorded; simpl.
        rewrite Htext; tauto.
    + eexists; split; [destruct (smtp e _); simpl; reflexivity|].
      split; [repeat constructor | simpl; lia].
    + destruct (smtp e _); simpl.
      * exists []; rewrite app_nil_r; repeat split; auto.
      * eexists; split; [reflexivity|].
        split; [|simpl; lia]. constructor; [|constructor].
        simpl; split; [reflexivity|]. right; left; reflexivity.
  - destruct (closing t f); [apply Hnone|].
    split; [|split].
    + eexists; split; [apply save_changes_tickets|].
      intros r; unfold same_identity, resolution_recorded; simpl; tauto.
    + eexists; split; [apply save_changes_notes_app|].
      unfold spec_edit_log.
      destruct (spec_changes _ _ _ _), new_note; simpl;
        split; try (repeat constructor); lia.
    + exists []; rewrite app_nil_r, save_changes_outbox; repeat split; auto.
  - unfold send_reply.
    destruct (PyStr.truthy body); [|apply Hnone].
    unfold send_email.
    destruct (smtp e _); simpl.
    + apply Hnone.
    + split; [|split].
      * exists (fun r => r); split; [now rewrite update_where_id_same|].
        intros r; unfold same_identity; tauto.
      * eexists; split; [reflexivity|].
        split; [repeat constructor | simpl; lia].
      * eexists; split; [reflexivity|].
        split; [|simpl; lia]. constructor; [|constructor].
        simpl; split; [reflexivity|]. right; right; left; reflexivity.
Qed.

(** ** What one event does to the tables and the relay *)

Lemma find_ticket_update_any (i j : string) (g : ticket -> ticket)
  (ts : list ticket) (t : ticket) :
  (forall r, id (g r) = id r) ->
  find_ticket i ts = Some t ->
  exists t', find_ticket i (update_where_id j g ts) = Some t' /\ (t' = t \/ t' = g t).
Proof.
  intros Hg; unfold find_ticket, update_where_id.
  induction ts as [|r ts IH]; simpl; [discriminate|].
  assert (Hid : id (if String.eqb (id r) j then g r else r) = id r)
    by (destruct (String.eqb (id r) j); auto).
  rewrite Hid. destruct (String.eqb (id r) i).
  - intros H; injection H as ->.
    eexists; split; [reflexivity|]. destruct (String.eqb (id t) j); auto.
  - exact IH.
Qed.

Lemma find_ticket_app (i : string) (ts more : list ticket) (t : ticket) :
  find_ticket i ts = Some t -> find_ticket i (ts ++ more) = Some t.
Proof.
  unfold find_ticket; induction ts as [|r ts IH]; simpl; [discriminate|].
  destruct (String.eqb (id r) i); auto.
Qed.

Lemma update_where_id_In (j : string) (g : ticket -> ticket)
  (ts : list ticket) (t : ticket) :
  In t ts -> In (if String.eqb (id t) j then g t else t) (update_where_id j g ts).
Proof.
  intros H; unfold update_where_id.
  exact (in_map (fun r => if String.eqb (id r) j then g r else r) ts t H).
Qed.

Lemma new_ticket_shape e t_id name mail_addr cat pri msg w :
  let w' := fst (new_ticket e t_id name mail_addr cat pri msg w) in
  let t := mkTicket t_id name mail_addr msg None cat pri New None (now e) None None in
  ticket_notes w' = ticket_notes w
  /\ ((tickets w' = tickets w /\ outbox w' = outbox w)
      \/ (find_ticket t_id (tickets w) = None
          /\ tickets w' = tickets w ++ [t]
          /\ (outbox w' = outbox w
              \/ outbox w' = outbox w ++ [mkMail mail_addr ("Ticket #" ++ t_id) "Received."]))).
Proof.
  unfold new_ticket, insert_ticket; cbn [id].
  destruct (find_ticket t_id (tickets w)) eqn:Hfind; cbn [fst].
  - split; [reflexivity | left; split; reflexivity].
  - rewrite send_email_notes. split; [reflexivity|].
    right. split; [reflexivity|]. rewrite send_email_tickets.
    split; [reflexivity|].
    unfold send_email. destruct (smtp e _); simpl; [left | right]; reflexivity.
Qed.

Lemma step_tickets_kept (w : world) (ev : event) (i : string) (t : ticket) :
  find_ticket i (tickets w) = Some t ->
  exists t', find_ticket i (tickets (step w ev)) = Some t'
             /\ same_identity t t'
             /\ (resolution_recorded t = true -> resolution_recorded t' = true).
Proof.
  assert (Hrefl : same_identity t t) by (unfold same_identity; tauto).
  intros Hfind; destruct ev as [e t_id name mail_addr cat pri msg | u e row f b]; simpl.
  - destruct (new_ticket_shape e t_id name mail_addr cat pri msg w)
      as (_ & [[Ht _] | (_ & Ht & _)]); rewrite Ht.
    + eauto.
    + exists t; split; [now apply find_ticket_app | auto].
  - destruct (is_staff (Some u)); [|eauto].
    destruct (nth_error (dashboard_query (Some u) w) row) as [t0|]; [|eauto].
    destruct (ticket_popup_shape u e t0 f b w) as ((g & Ht & Hg) & _).
    simpl in Ht; rewrite Ht.
    destruct (find_ticket_update_any i (id t0) g (tickets w) t) as (t' & Hfind' & [->| ->]);
      auto.
    + intros r; apply (Hg r).
    + eauto.
    + exists (g t); split; [exact Hfind'|]. apply Hg.
Qed.

Lemma step_In_kept (w : world) (ev : event) (t : ticket) :
  In t (tickets w) ->
  exists t', In t' (tickets (step w ev)) /\ same_identity t t'.
Proof.
  assert (Hrefl : same_identity t t) by (unfold same_identity; tauto).
  intros Hin; destruct ev as [e t_id name mail_addr cat pri msg | u e row f b]; simpl.
  - destruct (new_ticket_shape e t_id name mail_addr cat pri msg w)
      as (_ & [[Ht _] | (_ & Ht & _)]); rewrite Ht.
    + eauto.
    + exists t; split; [apply in_or_app; now left | auto].
  - destruct (is_staff (Some u)); [|eauto].
    destruct (nth_error (dashboard_query (Some u) w) row) as [t0|]; [|eauto].
    destruct (ticket_popup_shape u e t0 f b w) as ((g & Ht & Hg) & _).
    simpl in Ht; rewrite Ht.
    eexists; split; [apply update_where_id_In; exact Hin|].
    destruct (String.eqb (id t) (id t0)); [apply Hg | exact Hrefl].
Qed.

Lemma step_notes_app (w : world) (ev : event) :
  exists ns, ticket_notes (step w ev) = ticket_notes w ++ ns
             /\ Forall (fun n => exists t, In t (tickets w) /\ id t = ticket_id n) ns
             /\ List.length ns <= 2.
Proof.
  assert (Hnone : exists ns, ticket_notes w = ticket_notes w ++ ns
             /\ Forall (fun n => exists t, In t (tickets w) /\ id t = ticket_id n) ns
             /\ List.length ns <= 2)
    by (exists []; rewrite app_nil_r; repeat split; auto).
  destruct ev as [e t_id name mail_addr cat pri msg | u e row f b]; simpl.
  - destruct (new_ticket_shape e t_id name mail_addr cat pri msg w) as (Hn & _).
    simpl in Hn; rewrite Hn. exact Hnone.
  - destruct (is_staff (Some u)); [|exact Hnone].
    destruct (nth_error (dashboard_query (Some u) w) row) as [t0|] eqn:Hrow;
      [|exact Hnone].
    destruct (ticket_popup_shape u e t0 f b w) as (_ & (ns & Hns & Hall & Hlen) & _).
    exists ns; repeat split; auto.
    eapply Forall_impl; [|exact Hall]. simpl; intros n Hn.
    exists t0; split; [|now symmetry].
    eapply dashboard_query_In, nth_error_In; exact Hrow.
Qed.

Lemma step_outbox_app (w : world) (ev : event) :
  exists ms, outbox (step w ev) = outbox w ++ ms
             /\ Forall (fun m => exists t, In t (tickets (step w ev))
                                           /\ mail_to m = email t
                                           /\ In (mail_subject m) (subjects_of t)) ms
             /\ List.length ms <= 1.
Proof.
  assert (Hnone : forall w0 : world, outbox w0 = outbox w ->
             exists ms, outbox w0 = outbox w ++ ms
             /\ Forall (fun m => exists t, In t (tickets w0)
                                           /\ mail_to m = email t
                                           /\ In (mail_subject m) (subjects_of t)) ms
             /\ List.length ms <= 1)
    by (intros w0 ->; exists []; rewrite app_nil_r; repeat split; auto).
  destruct ev as [e t_id name mail_addr cat pri msg | u e row f b]; simpl.
  - destruct (new_ticket_shape e t_id name mail_addr cat pri msg w)
      as (_ & [[_ Ho] | (_ & Ht & [Ho|Ho])]); try (apply Hnone; exact Ho).
    simpl in Ho, Ht. eexists; split; [exact Ho|]. split; [|simpl; lia].
    constructor; [|constructor].
    eexists; split; [rewrite Ht; apply in_or_app; right; left; reflexivity|].
    simpl; auto.
  - destruct (is_staff (Some u)); [|now apply Hnone].
    destruct (nth_error (dashboard_query (Some u) w) row) as [t0|] eqn:Hrow;
      [|now apply Hnone].
    destruct (ticket_popup_shape u e t0 f b w)
      as ((g & Ht & Hg) & _ & (ms & Hms & Hall & Hlen)).
    exists ms; repeat split; auto.
    eapply Forall_impl; [|exact Hall]. simpl; intros m [Hto Hsub].
    assert (Hin0 : In t0 (tickets w))
      by (eapply dashboard_query_In, nth_error_In; exact Hrow).
    exists (g t0). destruct (Hg t0) as [(Hid & _ & Hemail & _) _].
    split.
    + rewrite Ht. pose proof (update_where_id_In (id t0) g _ _ Hin0) as H.
      now rewrite String.eqb_refl in H.
    + unfold subjects_of in *. rewrite Hid, Hemail. auto.
Qed.

(** ** Invariants of all runs *)

Lemma same_identity_trans (a b c : ticket) :
  same_identity a b -> same_identity b c -> same_identity a c.
Proof. unfold same_identity; intuition congruence. Qed.

Lemma run_app (evs evs' : list event) :
  run (evs ++ evs') = fold_left step evs' (run evs).
Proof. unfold run; apply fold_left_app. Qed.

Lemma steps_tickets_kept (evs : list event) (w : world) (i : string) (t : ticket) :
  find_ticket i (tickets w) = Some t ->
  exists t', find_ticket i (tickets (fold_left step evs w)) = Some t'
             /\ same_identity t t'
             /\ (resolution_recorded t = true -> resolution_recorded t' = true).
Proof.
  revert w t; induction evs as [|ev evs IH]; intros w t Hfind; simpl.
  - exists t; unfold same_identity; tauto.
  - destruct (step_tickets_kept w ev i t Hfind) as (t1 & H1 & Hid1 & Hres1).
    destruct (IH _ _ H1) as (t2 & H2 & Hid2 & Hres2).
    exists t2; split; [exact H2|]. split; [|auto].
    eapply same_identity_trans; eauto.
Qed.

(** X5: a stored ticket is never deleted and its identity never
    rewritten: whatever happens after a run, the ticket found under an id
    keeps its id, customer name, customer email, description, attachment,
    category and creation time; and a resolution once recorded (summary
    non-empty and timestamp set) stays recorded. *)
Theorem ticket_identity_is_kept (evs evs' : list event) (i : string) (t : ticket) :
  find_ticket i (tickets (run evs)) = Some t ->
  exists t', find_ticket i (tickets (run (evs ++ evs'))) = Some t'
             /\ same_identity t t'
             /\ (resolution_recorded t = true -> resolution_recorded t' = true).
Proof. intros H; rewrite run_app; now apply steps_tickets_kept. Qed.

Lemma ticket_identity_is_kept_witness :
  find_ticket "1A2B3C4D" (tickets (run filed_closed)) = Some closed_ticket
  /\ exists t', find_ticket "1A2B3C4D" (tickets (run filed_closed_reopened)) = Some t'
                /\ same_identity closed_ticket t'
                /\ (resolution_recorded closed_ticket = true ->
                    resolution_recorded t' = true).
Proof.
  split; [reflexivity|].
  exact (ticket_identity_is_kept filed_closed
           [Manage agent_user relay_up 0 (mkForm Open Medium "") (SaveChanges "")]
           "1A2B3C4D" closed_ticket eq_refl).
Defined.

Lemma steps_notes_app (evs : list event) (w : world) :
  exists ns, ticket_notes (fold_left step evs w) = ticket_notes w ++ ns
             /\ List.length ns <= 2 * List.length evs.
Proof.
  revert w; induction evs as [|ev evs IH]; intros w; simpl.
  - exists []; rewrite app_nil_r; auto.
  - destruct (step_notes_app w ev) as (ns1 & H1 & _ & Hlen1).
    destruct (IH (step w ev)) as (ns2 & H2 & Hlen2).
    exists (ns1 ++ ns2); rewrite H2, H1, app_assoc; split; [reflexivity|].
    rewrite length_app; lia.
Qed.

(** X6: the activity log is append-only: the log after more events is
    the log before them followed by new rows, at most two per event; no
    row is ever changed, reordered or removed. *)
Theorem log_is_append_only (evs evs' : list event) :
  exists ns, ticket_notes (run (evs ++ evs')) = ticket_notes (run evs) ++ ns
             /\ List.length ns <= 2 * List.length evs'.
Proof. rewrite run_app; apply steps_notes_app. Qed.

Lemma step_notes_inv (w : world) (ev : event) : notes_inv w -> notes_inv (step w ev).
Proof.
  unfold notes_inv; intros Hinv n Hn.
  destruct (step_notes_app w ev) as (ns & Hns & Hall & _).
  rewrite Hns in Hn. apply in_app_or in Hn.
  assert (Hold : exists t, In t (tickets w) /\ id t = ticket_id n).
  { destruct Hn as [Hn|Hn]; [now apply Hinv|].
    rewrite Forall_forall in Hall; now apply Hall. }
  destruct Hold as (t & Ht & Hid).
  destruct (step_In_kept w ev t Ht) as (t' & Ht' & Hid' & _).
  exists t'; split; [exact Ht' | congruence].
Qed.

Lemma step_outbox_inv (w : world) (ev : event) : outbox_inv w -> outbox_inv (step w ev).
Proof.
  unfold outbox_inv; intros Hinv m Hm.
  destruct (step_outbox_app w ev) as (ms & Hms & Hall & _).
  rewrite Hms in Hm. apply in_app_or in Hm. destruct Hm as [Hm|Hm].
  - destruct (Hinv m Hm) as (t & Ht & Hto & Hsub).
    destruct (step_In_kept w ev t Ht) as (t' & Ht' & Hid' & _ & Hemail' & _).
    exists t'; split; [exact Ht'|]. unfold subjects_of in *.
    rewrite Hid', Hemail'; auto.
  - rewrite Forall_forall in Hall; now apply Hall.
Qed.

Lemma run_tables_inv (evs : list event) : notes_inv (run evs) /\ outbox_inv (run evs).
Proof.
  unfold run.
  assert (H0 : notes_inv empty_world /\ outbox_inv empty_world)
    by (split; intros x []).
  revert H0; generalize empty_world.
  induction evs as [|ev evs IH]; intros w [Hn Ho]; simpl; [now split|].
  apply IH; split; [now apply step_notes_inv | now apply step_outbox_inv].
Qed.

(** X7: every row of the activity log belongs to a stored ticket: in
    every run, the ticket id of a log row is the id of a row of the table
    of tickets. *)
Theorem log_rows_belong_to_tickets (evs : list event) (n : note) :
  In n (ticket_notes (run evs)) ->
  exists t, In t (tickets (run evs)) /\ id t = ticket_id n.
Proof. intros Hn; now apply (proj1 (run_tables_inv evs)). Qed.

Lemma log_rows_belong_to_tickets_witness :
  exists t, In t (tickets (run filed_closed))
            /\ id t = ticket_id (mkNote "1A2B3C4D"
                                   "⚙️ SYSTEM: Ticket Closed. Resolution: fixed"
                                   (Some "agent@example.com") 1000).
Proof.
  apply (log_rows_belong_to_tickets filed_closed). left; reflexivity.
Defined.

(** X8: the script writes to customers only: in every run, each mail the
    relay accepted is addressed to the customer email of a stored ticket
    and its subject is one of the three subjects of that ticket (the
    acknowledgment, the resolution, a reply). *)
Theorem mails_go_to_customers (evs : list event) (m : mail) :
  In m (outbox (run evs)) ->
  exists t, In t (tickets (run evs))
            /\ mail_to m = email t
            /\ In (mail_subject m) (subjects_of t).
Proof. intros Hm; now apply (proj2 (run_tables_inv evs)). Qed.

Lemma mails_go_to_customers_witness :
  exists t, In t (tickets (run filed))
            /\ mail_to (mkMail "a@x.com" "Ticket #1A2B3C4D" "Received.") = email t
            /\ In (mail_subject (mkMail "a@x.com" "Ticket #1A2B3C4D" "Received."))
                 (subjects_of t).
Proof.
  apply (mails_go_to_customers filed). left; reflexivity.
Defined.

(** ** More on strings *)

Lemma occurs_in_self (s : string) : occurs_in s s.
Proof. exists EmptyString, EmptyString; simpl; now rewrite append_nil_r. Qed.

Lemma occurs_in_app_l (d a s : string) : occurs_in d s -> occurs_in d (a ++ s).
Proof.
  intros (b & c & ->). exists (a ++ b)%string, c. now rewrite append_assoc.
Qed.

Lemma occurs_in_app_r (d s a : string) : occurs_in d s -> occurs_in d (s ++ a).
Proof.
  intros (b & c & ->). exists b, (c ++ a)%string. now rewrite !append_assoc.
Qed.

Lemma join_occurs_last (sep d : string) (xs : list string) :
  occurs_in d (PyStr.join sep (xs ++ [d])).
Proof.
  induction xs as [|x xs IH]; [apply occurs_in_self|].
  change (PyStr.join sep ((x :: xs) ++ [d]))
    with (PyStr.join sep (x :: (xs ++ [d]))).
  destruct (xs ++ [d]) as [|y ys] eqn:Hys; [destruct xs; discriminate|].
  change (PyStr.join sep (x :: y :: ys))
    with (x ++ sep ++ PyStr.join sep (y :: ys))%string.
  now apply occurs_in_app_l, occurs_in_app_l.
Qed.

Lemma spec_changes_assignee (t : ticket) (s : status) (p : priority)
  (a : option string) :
  opt_string_eqb a (assigned_to t) = false ->
  exists pre, spec_changes t s p a
              = pre ++ [spec_description "Assignee" (PyStr.fmt_opt (assigned_to t))
                          (PyStr.fmt_opt a)].
Proof.
  intros Ha; unfold spec_changes; cbn [flat_map]. rewrite Ha.
  eexists. rewrite app_nil_r, app_assoc. reflexivity.
Qed.

(** ** An admin's save of an unassigned ticket *)

(** X9: when an admin saves the dialog of a ticket whose assignee is null
    with the assignee box left on its start value, the word Unassigned is
    stored as the assignee, the change "Assignee: None → Unassigned" is
    logged, and from then on the ticket is on no agent's dashboard (the
    agent filter keeps null assignees and the agent's own email only). *)
Theorem admin_save_marks_unassigned
  (u : user) (e : env) (t : ticket) (f : form) (new_note mine : string) (w : world) :
  is_admin (Some u) = true ->
  assigned_to t = None ->
  closing t f = false ->
  assign_sel f = "Unassigned" ->
  mine <> "Unassigned" ->
  let w' := fst (ticket_popup u e t f (SaveChanges new_note) w) in
  (forall r, In r (tickets w') -> id r = id t -> assigned_to r = Some "Unassigned")
  /\ (forall r, In r (dashboard_query (Some (mkUser mine (Some "agent"))) w') ->
                id r <> id t)
  /\ (exists n, In n (notes_added w w')
                /\ occurs_in "Assignee: None → Unassigned" (note_text n)).
Proof.
  intros Hadmin Hnull Hc Hsel Hmine w'.
  assert (Hw' : w' = fst (save_changes u e t f new_note w))
    by (unfold w'; simpl; now rewrite Hc).
  assert (Ha : new_assign u w t f = Some "Unassigned").
  { unfold new_assign, selectbox; rewrite Hadmin, Hsel.
    assert (Hm : PyStr.mem "Unassigned" (staff_list u w) = true)
      by (apply mem_In, staff_list_In; auto).
    now rewrite Hm. }
  assert (Hrows : forall r, In r (tickets w') -> id r = id t ->
                            assigned_to r = Some "Unassigned").
  { intros r Hr Hid. rewrite Hw', save_changes_tickets, Ha in Hr.
    unfold update_where_id in Hr. apply in_map_iff in Hr as (r0 & <- & _).
    destruct (String.eqb (id r0) (id t)) eqn:Heq; [reflexivity|].
    apply String.eqb_neq in Heq; contradiction. }
  split; [exact Hrows|]. split.
  - intros r Hr Hid. unfold dashboard_query in Hr; simpl in Hr.
    apply order_desc_In, filter_In in Hr as [Hin Hvis].
    unfold unassigned_or_mine in Hvis. rewrite (Hrows r Hin Hid) in Hvis.
    apply String.eqb_eq in Hvis. congruence.
  - rewrite Hw', save_changes_notes, Ha.
    destruct (spec_changes_assignee t (new_status_sel f) (new_priority_sel f)
                (Some "Unassigned")) as (pre & Hpre);
      [rewrite Hnull; reflexivity|].
    rewrite Hpre, Hnull. unfold spec_edit_log.
    assert (Hocc : occurs_in "Assignee: None → Unassigned"
                     (system_prefix ++ "Updated: "
                      ++ PyStr.join ", "
                           (pre ++ [spec_description "Assignee" (PyStr.fmt_opt None)
                                      (PyStr.fmt_opt (Some "Unassigned"))])))
      by (apply occurs_in_app_l, occurs_in_app_l, join_occurs_last).
    destruct (pre ++ [spec_description "Assignee" (PyStr.fmt_opt None)
                        (PyStr.fmt_opt (Some "Unassigned"))]) as [|c cs] eqn:Hcs;
      [destruct pre; discriminate|].
    eexists; split; [apply in_or_app; left; left; reflexivity | exact Hocc].
Qed.

Lemma admin_save_marks_unassigned_witness :
  let w' := fst (ticket_popup admin_user relay_up filed_ticket untouched_admin_form
                   (SaveChanges "") (run filed)) in
  tickets w' = [mkTicket "1A2B3C4D" "Ann" "a@x.com" "Export fails" None "Data"
                  Medium New (Some "Unassigned") 1000 None None]
  /\ dashboard_query (Some agent_user) w' = []
  /\ forall r, In r (dashboard_query (Some agent_user) w') -> id r <> "1A2B3C4D".
Proof.
  split; [reflexivity|]. split; [reflexivity|].
  refine (proj1 (proj2 (admin_save_marks_unassigned admin_user relay_up filed_ticket
                          untouched_admin_form "" "agent@example.com" (run filed)
                          eq_refl eq_refl eq_refl eq_refl _))).
  discriminate.
Defined.

(** ** A new ticket *)

(** X10: a ticket filed under an id that is not stored yet is stored
    with status New, no assignee and no resolution, and it is on the
    dashboard of every member of staff, agents included, since the agent
    filter keeps null assignees; no log row is written for it. *)
Theorem new_ticket_reaches_every_dashboard
  (e : env) (t_id name mail_addr cat : string) (pri : priority) (msg : string)
  (su : option user) (w : world) :
  find_ticket t_id (tickets w) = None ->
  let t := mkTicket t_id name mail_addr msg None cat pri New None (now e) None None in
  let w' := fst (new_ticket e t_id name mail_addr cat pri msg w) in
  tickets w' = tickets w ++ [t]
  /\ In t (dashboard_query su w')
  /\ ticket_notes w' = ticket_notes w
  /\ snd (new_ticket e t_id name mail_addr cat pri msg w)
     = [Success ("Created #" ++ t_id)].
Proof.
  intros Hfresh t w'.
  assert (Ht : tickets w' = tickets w ++ [t]).
  { unfold w', new_ticket, insert_ticket; cbn [id]. rewrite Hfresh; cbn [fst].
    now rewrite send_email_tickets. }
  split; [exact Ht|]. split; [|split].
  - unfold dashboard_query. apply order_desc_In.
    assert (Hin : In t (tickets w')) by (rewrite Ht; apply in_or_app; right; now left).
    destruct su as [u|]; [|exact Hin].
    destruct (is_agent (Some u)); [|exact Hin].
    apply filter_In; split; [exact Hin | reflexivity].
  - unfold w', new_ticket, insert_ticket; cbn [id]. rewrite Hfresh; cbn [fst].
    now rewrite send_email_notes.
  - unfold new_ticket, insert_ticket; cbn [id]. now rewrite Hfresh.
Qed.

Lemma new_ticket_reaches_every_dashboard_witness :
  find_ticket "1A2B3C4D" (tickets empty_world) = None
  /\ In filed_ticket (dashboard_query (Some agent_user) (run filed)).
Proof.
  split; [reflexivity|].
  exact (proj1 (proj2 (new_ticket_reaches_every_dashboard relay_up "1A2B3C4D" "Ann"
                         "a@x.com" "Data" Medium "Export fails" (Some agent_user)
                         empty_world eq_refl))).
Defined.

(** ** A closed ticket in the dialog *)

(** X11: while a ticket is stored as Closed the dialog never takes the
    closing branch again: Close & Resolve does nothing at all, and
    whatever button is pressed the stored resolution timestamp and
    summary stay what they are. *)
Theorem closed_ticket_keeps_its_resolution
  (u : user) (e : env) (t : ticket) (f : form) (b : button) (w : world) :
  status_of t = Closed ->
  find_ticket (id t) (tickets w) = Some t ->
  closing t f = false
  /\ (forall text, ticket_popup u e t f (CloseResolve text) w = (w, []))
  /\ exists r, find_ticket (id t) (tickets (fst (ticket_popup u e t f b w))) = Some r
               /\ resolved_at r = resolved_at t
               /\ resolution_summary r = resolution_summary t.
Proof.
  intros Hclosed Hstored.
  assert (Hc : closing t f = false)
    by (unfold closing; rewrite Hclosed; simpl; apply andb_false_r).
  split; [exact Hc|]. split; [intros text; simpl; now rewrite Hc|].
  destruct b as [text|new_note|body]; simpl; rewrite ?Hc.
  - eauto.
  - rewrite save_changes_tickets.
    eexists; split; [apply find_ticket_update; [reflexivity | exact Hstored]|].
    split; reflexivity.
  - rewrite send_reply_tickets; eauto.
Qed.

Lemma closed_ticket_keeps_its_resolution_witness :
  status_of closed_ticket = Closed
  /\ closing closed_ticket (mkForm Closed High "") = false
  /\ ticket_popup agent_user relay_up closed_ticket (mkForm Closed High "")
       (CloseResolve "again") (run filed_closed) = (run filed_closed, []).
Proof.
  pose proof (closed_ticket_keeps_its_resolution agent_user relay_up closed_ticket
                (mkForm Closed High "") (SaveChanges "") (run filed_closed)
                eq_refl eq_refl) as (Hc & Hnop & _).
  split; [reflexivity|]. split; [exact Hc | exact (Hnop "again"%string)].
Defined.

(** ** What a standard edit logs *)

(** X12: outside the closing branch, Save Changes with no note adds a
    row to the log exactly when a selected value differs from the stored
    one: no row when status, priority and assignee are all as stored, one
    system row otherwise; there are never more than three change
    descriptions. *)
Theorem save_logs_iff_something_changed
  (u : user) (e : env) (t : ticket) (f : form) (w : world) :
  closing t f = false ->
  let a := new_assign u w t f in
  let added := notes_added w (fst (ticket_popup u e t f (SaveChanges "") w)) in
  (added = [] <->
   new_status_sel f = status_of t /\ new_priority_sel f = priority_of t
   /\ a = assigned_to t)
  /\ List.length added <= 1
  /\ List.length (detect_changes t f a) <= 3.
Proof.
  intros Hc a added.
  assert (Hadded : added = spec_edit_log u e t
                             (spec_changes t (new_status_sel f) (new_priority_sel f) a) "")
    by (unfold added; simpl; rewrite Hc; apply save_changes_notes).
  assert (Hnil : spec_changes t (new_status_sel f) (new_priority_sel f) a = [] <->
                 new_status_sel f = status_of t /\ new_priority_sel f = priority_of t
                 /\ a = assigned_to t).
  { rewrite <- status_eqb_eq, <- priority_eqb_eq, <- opt_string_eqb_eq.
    unfold spec_changes; cbn [flat_map].
    destruct (status_eqb (new_status_sel f) (status_of t)),
             (priority_eqb (new_priority_sel f) (priority_of t)),
             (opt_string_eqb a (assigned_to t)); simpl;
      split; solve [auto | discriminate | intros (? & ? & ?); discriminate]. }
  split; [|split].
  - rewrite Hadded, <- Hnil. unfold spec_edit_log.
    destruct (spec_changes _ _ _ _); simpl; split; solve [auto | discriminate].
  - rewrite Hadded; unfold spec_edit_log.
    destruct (spec_changes _ _ _ _); simpl; lia.
  - rewrite detect_changes_spec. unfold spec_changes; cbn [flat_map].
    destruct (status_eqb (new_status_sel f) (status_of t)),
             (priority_eqb (new_priority_sel f) (priority_of t)),
             (opt_string_eqb a (assigned_to t)); simpl; lia.
Qed.

Lemma save_logs_iff_something_changed_witness :
  closing filed_ticket (mkForm New Medium "") = false
  /\ notes_added (run filed)
       (fst (ticket_popup agent_user relay_up filed_ticket (mkForm New Medium "")
               (SaveChanges "") (run filed))) = [].
Proof.
  split; [reflexivity|].
  apply (proj1 (save_logs_iff_something_changed agent_user relay_up filed_ticket
                  (mkForm New Medium "") (run filed) eq_refl)).
  repeat split.
Defined.

(** ** The resolution email *)

(** X13: when a closing transition goes through and the relay accepts
    the message, exactly one mail is added: to the ticket's customer
    email, with subject "Ticket #<id> Resolved", and a body that greets
    the customer by name and quotes the resolution text; nothing is
    printed as a diagnostic. *)
Theorem resolution_mail_quotes_the_resolution
  (u : user) (e : env) (t : ticket) (f : form) (text : string) (w : world) :
  closing t f = true ->
  PyStr.truthy text = true ->
  (forall m, smtp e m = None) ->
  let w' := fst (ticket_popup u e t f (CloseResolve text) w) in
  exists m, outbox w' = outbox w ++ [m]
            /\ mail_to m = email t
            /\ mail_subject m = ("Ticket #" ++ id t ++ " Resolved")%string
            /\ occurs_in ("Hi " ++ customer_name t ++ ",") (mail_body m)
            /\ occurs_in text (mail_body m)
            /\ stdout w' = stdout w.
Proof.
  intros Hc Htext Hup; simpl. rewrite Hc.
  unfold close_and_resolve; rewrite Htext. unfold send_email; rewrite Hup; simpl.
  eexists; split; [reflexivity|]. simpl. repeat split.
  - exists EmptyString. eexists. simpl. rewrite append_assoc. reflexivity.
  - exists ("Hi " ++ customer_name t ++ "," ++ PyStr.nl ++ PyStr.nl
            ++ "Your ticket is resolved:" ++ PyStr.nl)%string.
    eexists. simpl. rewrite append_assoc. reflexivity.
Qed.

Lemma resolution_mail_quotes_the_resolution_witness :
  closing filed_ticket (mkForm Closed Medium "") = true
  /\ exists m, outbox (run filed_closed) = outbox (run filed) ++ [m]
               /\ mail_to m = "a@x.com"
               /\ mail_subject m = "Ticket #1A2B3C4D Resolved"
               /\ occurs_in "Hi Ann," (mail_body m)
               /\ occurs_in "fixed" (mail_body m)
               /\ stdout (run filed_closed) = stdout (run filed).
Proof.
  split; [reflexivity|].
  exact (resolution_mail_quotes_the_resolution agent_user relay_up filed_ticket
           (mkForm Closed Medium "") "fixed" (run filed) eq_refl eq_refl
           (fun _ => eq_refl)).
Defined.

(** ** Saving twice *)

Lemma update_where_id_idem (j : string) (g : ticket -> ticket) (ts : list ticket) :
  (forall r, id (g r) = id r) -> (forall r, g (g r) = g r) ->
  update_where_id j g (update_where_id j g ts) = update_where_id j g ts.
Proof.
  intros Hid Hidem; unfold update_where_id; rewrite map_map.
  apply map_ext; intros r.
  destruct (String.eqb (id r) j) eqn:Hr; [now rewrite Hid, Hr, Hidem | now rewrite Hr].
Qed.

Lemma find_ticket_In (i : string) (ts : list ticket) (t : ticket) :
  find_ticket i ts = Some t -> In t ts /\ id t = i.
Proof.
  unfold find_ticket; intros H. apply find_some in H as [Hin Heq].
  split; [exact Hin | now apply String.eqb_eq].
Qed.

Lemma selectbox_In (options : list string) (default submitted : string) :
  In default options -> In (selectbox options default submitted) options.
Proof.
  intros Hd; unfold selectbox.
  destruct (PyStr.mem submitted options) eqn:Hm; [now apply mem_In | exact Hd].
Qed.

(** The assignee a second run of the dialog would write is the one the
    first run stored. *)
Lemma new_assign_after_save (u : user) (e : env) (t : ticket) (f : form)
  (new_note : string) (w : world) :
  find_ticket (id t) (tickets w) = Some t ->
  let a := new_assign u w t f in
  let t1 := mkTicket (id t) (customer_name t) (email t) (description t)
              (attachment_url t) (category t)
              (new_priority_sel f) (new_status_sel f) a
              (created_at t) (resolved_at t) (resolution_summary t) in
  new_assign u (fst (save_changes u e t f new_note w)) t1 f = a.
Proof.
  intros Hstored a t1.
  set (w1 := fst (save_changes u e t f new_note w)).
  destruct (is_admin (Some u)) eqn:Hadmin;
    [|rewrite new_assign_non_admin by exact Hadmin; reflexivity].
  set (s1 := selectbox (staff_list u w) (current_assign u w t) (assign_sel f)).
  assert (Ha : a = Some s1) by (unfold a, new_assign; now rewrite Hadmin).
  assert (HA : In s1 (staff_list u w)) by (apply selectbox_In, current_assign_In).
  assert (Ht1 : In t1 (tickets w1)).
  { unfold w1; rewrite save_changes_tickets.
    destruct (find_ticket_In _ _ _ Hstored) as [Hin _].
    pose proof (update_where_id_In (id t)
                  (fun r => mkTicket (id r) (customer_name r) (email r) (description r)
                              (attachment_url r) (category r)
                              (new_priority_sel f) (new_status_sel f)
                              (new_assign u w t f)
                              (created_at r) (resolved_at r) (resolution_summary r))
                  _ _ Hin) as H.
    now rewrite String.eqb_refl in H. }
  assert (HA1 : In s1 (staff_list u w1)).
  { apply staff_list_In. apply staff_list_In in HA.
    destruct HA as [H|[H|(t0 & _ & _ & Hne)]]; auto.
    right; right; exists t1; repeat split; auto. }
  assert (HB : forall s, In s (staff_list u w1) -> In s (staff_list u w)).
  { intros s Hs. apply staff_list_In in Hs.
    destruct Hs as [->|[->|(r1 & Hr1 & Hs & Hne)]];
      [apply staff_list_In; auto | apply staff_list_In; auto |].
    unfold w1 in Hr1; rewrite save_changes_tickets in Hr1.
    unfold update_where_id in Hr1. apply in_map_iff in Hr1 as (r & Hr & Hin).
    destruct (String.eqb (id r) (id t)).
    - subst r1; simpl in Hs. fold a in Hs. rewrite Ha in Hs.
      injection Hs as <-. exact HA.
    - subst r1. apply staff_list_In. right; right; exists r; auto. }
  unfold new_assign; rewrite Hadmin, Ha. f_equal.
  unfold selectbox at 1.
  destruct (PyStr.mem (assign_sel f) (staff_list u w1)) eqn:Hm1.
  - apply mem_In, HB, mem_In in Hm1. unfold s1, selectbox. now rewrite Hm1.
  - unfold current_assign, t1; cbn [assigned_to]. rewrite Ha.
    apply mem_In in HA1. now rewrite HA1.
Qed.

(** X14: saving is idempotent.  After Save Changes on the stored row of a
    ticket, pressing Save Changes again on the updated row with the same
    selections and no note takes the standard branch, rewrites the row to
    what it already is, and adds no log row and no mail; this holds for
    an admin as well, whatever was submitted for the assignee. *)
Theorem save_twice_is_save_once
  (u : user) (e e' : env) (t : ticket) (f : form) (new_note : string) (w : world) :
  find_ticket (id t) (tickets w) = Some t ->
  closing t f = false ->
  let w1 := fst (ticket_popup u e t f (SaveChanges new_note) w) in
  exists t1, find_ticket (id t) (tickets w1) = Some t1
             /\ closing t1 f = false
             /\ tickets (fst (ticket_popup u e' t1 f (SaveChanges "") w1)) = tickets w1
             /\ ticket_notes (fst (ticket_popup u e' t1 f (SaveChanges "") w1))
                = ticket_notes w1
             /\ outbox (fst (ticket_popup u e' t1 f (SaveChanges "") w1)) = outbox w1.
Proof.
  intros Hstored Hc w1.
  assert (Hw1 : w1 = fst (save_changes u e t f new_note w))
    by (unfold w1; simpl; now rewrite Hc).
  set (a := new_assign u w t f).
  set (t1 := mkTicket (id t) (customer_name t) (email t) (description t)
               (attachment_url t) (category t)
               (new_priority_sel f) (new_status_sel f) a
               (created_at t) (resolved_at t) (resolution_summary t)).
  assert (Ha1 : new_assign u w1 t1 f = a)
    by (rewrite Hw1; now apply new_assign_after_save).
  assert (Hc1 : closing t1 f = false).
  { unfold closing, t1; cbn [status_of].
    destruct (status_eqb (new_status_sel f) Closed); reflexivity. }
  exists t1. split; [|split; [exact Hc1|]].
  - rewrite Hw1, save_changes_tickets.
    erewrite find_ticket_update; [reflexivity | reflexivity | exact Hstored].
  - unfold ticket_popup; rewrite Hc1. split; [|split].
    + rewrite save_changes_tickets, Ha1. unfold t1 at 1; cbn [id].
      rewrite Hw1, save_changes_tickets. fold a.
      apply update_where_id_idem; reflexivity.
    + rewrite save_changes_notes_app, Ha1.
      assert (Hnone : spec_changes t1 (new_status_sel f) (new_priority_sel f) a = []).
      { unfold spec_changes, t1; cbn [flat_map status_of priority_of assigned_to].
        assert (H1 : status_eqb (new_status_sel f) (new_status_sel f) = true)
          by now apply status_eqb_eq.
        assert (H2 : priority_eqb (new_priority_sel f) (new_priority_sel f) = true)
          by now apply priority_eqb_eq.
        assert (H3 : opt_string_eqb a a = true) by now apply opt_string_eqb_eq.
        rewrite H1, H2, H3. reflexivity. }
      rewrite Hnone. unfold spec_edit_log; simpl. apply app_nil_r.
    + apply save_changes_outbox.
Qed.

Lemma save_twice_is_save_once_witness :
  find_ticket (id filed_ticket) (tickets (run filed)) = Some filed_ticket
  /\ closing filed_ticket (mkForm Open High "agent@example.com") = false
  /\ exists t1,
       find_ticket "1A2B3C4D"
         (tickets (fst (ticket_popup admin_user relay_up filed_ticket
                          (mkForm Open High "agent@example.com")
                          (SaveChanges "taking over") (run filed)))) = Some t1.
Proof.
  split; [reflexivity|]. split; [reflexivity|].
  destruct (save_twice_is_save_once admin_user relay_up relay_down filed_ticket
              (mkForm Open High "agent@example.com") "taking over" (run filed)
              eq_refl eq_refl) as (t1 & H1 & _).
  exists t1; exact H1.
Defined.

(** ** The tracking form on digits and on letters *)

Section TrackMore.
Variable db : PyChar.unicode_db.
Variable public_track_ticket : Z -> string -> list tracked.

Lemma ascii_digit_char (c : PyChar.codepoint) :
  ascii_digit c = true ->
  PyChar.upper_char db c = [c]
  /\ PyChar.numeric_type_of db c = PyChar.Decimal (Z.of_N c - 48)
  /\ (0 <= Z.of_N c - 48)%Z.
Proof.
  unfold ascii_digit, PyChar.upper_char, PyChar.numeric_type_of; intros H.
  repeat split; decide_tests.
Qed.

Lemma ascii_letter_char (c : PyChar.codepoint) :
  ascii_letter c = true ->
  exists c', PyChar.upper_char db c = [c'] /\ PyChar.isdigit_char db c' = false.
Proof.
  unfold ascii_letter; intros H.
  destruct ((97 <=? c) && (c <=? 122))%N eqn:Hsmall.
  - apply andb_true_iff in Hsmall as [H1 H2].
    apply N.leb_le in H1, H2.
    exists (c - 32)%N; split.
    + unfold PyChar.upper_char. decide_tests.
    + unfold PyChar.isdigit_char, PyChar.numeric_type_of. decide_tests.
  - assert (Hcap : (65 <= c <= 90)%N).
    { rewrite orb_false_r in H. apply andb_true_iff in H as [H1 H2].
      apply N.leb_le in H1, H2. lia. }
    clear H Hsmall. exists c; split.
    + unfold PyChar.upper_char. decide_tests.
    + unfold PyChar.isdigit_char, PyChar.numeric_type_of. decide_tests.
Qed.

Lemma upper_ascii_digits (s : list PyChar.codepoint) :
  forallb ascii_digit s = true -> PyChar.upper db s = s.
Proof.
  unfold PyChar.upper; induction s as [|c s IH]; simpl; [reflexivity|].
  intros H; apply andb_true_iff in H as [Hc Hs].
  destruct (ascii_digit_char c Hc) as (Hup & _). rewrite Hup, IH by exact Hs.
  reflexivity.
Qed.

Lemma isdigit_ascii_digits (s : list PyChar.codepoint) :
  forallb ascii_digit s = true -> forallb (PyChar.isdigit_char db) s = true.
Proof.
  induction s as [|c s IH]; simpl; [reflexivity|].
  intros H; apply andb_true_iff in H as [Hc Hs].
  destruct (ascii_digit_char c Hc) as (_ & Hnum & _).
  unfold PyChar.isdigit_char at 1; rewrite Hnum. now apply IH.
Qed.

Lemma int_from_ascii_digits (s : list PyChar.codepoint) (acc : Z) :
  forallb ascii_digit s = true -> (0 <= acc)%Z ->
  exists n, PyChar.int_from db acc s = Some n /\ (0 <= n)%Z.
Proof.
  revert acc; induction s as [|c s IH]; intros acc;
    cbn [PyChar.int_from forallb]; [eauto|].
  intros H Hacc; apply andb_true_iff in H as [Hc Hs].
  destruct (ascii_digit_char c Hc) as (_ & Hnum & Hpos).
  rewrite Hnum. apply IH; [exact Hs | lia].
Qed.

Lemma isdigit_upper_with_letter (s : list PyChar.codepoint) (c : PyChar.codepoint) :
  In c s -> ascii_letter c = true ->
  PyChar.upper db s <> [] /\ forallb (PyChar.isdigit_char db) (PyChar.upper db s) = false.
Proof.
  unfold PyChar.upper; induction s as [|d s IH]; simpl; [tauto|].
  intros [->|Hin] Hc.
  - destruct (ascii_letter_char c Hc) as (c' & Hup & Hnd).
    rewrite Hup; simpl. rewrite Hnd. split; [discriminate | reflexivity].
  - destruct (IH Hin Hc) as [Hne Hall]. split.
    + intros H; apply app_eq_nil in H as [_ H]; contradiction.
    + rewrite forallb_app, Hall. apply andb_false_r.
Qed.


(** X15: on an ID typed in ASCII digits only, with an email given, the
    tracking page shows no validation error.  When the ID has at most
    4300 digits, the default limit of [int], the digits are parsed to a
    number that is not negative, the tracking function is called exactly
    once with that number and the email as typed, and the page shows the
    neutral warning when the function returns no row and the status of
    the first row otherwise.  When the ID has more than 4300 digits,
    [int] raises [ValueError], which nothing catches: no lookup is made
    and the page shows neither message. *)
Theorem track_ascii_digits (id_text : list PyChar.codepoint) (tem : string) :
  id_text <> [] ->
  forallb ascii_digit id_text = true ->
  tem <> EmptyString ->
  ((N.of_nat (List.length id_text) <= PyChar.int_max_str_digits)%N ->
   exists n, (0 <= n)%Z
             /\ PyChar.int db id_text = Some n
             /\ lookups (track_ticket db public_track_ticket id_text tem) = [(n, tem)]
             /\ (public_track_ticket n tem = [] ->
                 shown (track_ticket db public_track_ticket id_text tem)
                 = [Warning "No ticket found for that ID and email."])
             /\ (forall r rest, public_track_ticket n tem = r :: rest ->
                 exists more,
                   shown (track_ticket db public_track_ticket id_text tem)
                   = Write ("**Status:** " ++ tracked_status r) :: more))
  /\ ((PyChar.int_max_str_digits < N.of_nat (List.length id_text))%N ->
      track_ticket db public_track_ticket id_text tem
      = mkTrackResult [] [Uncaught "ValueError"]).
Proof.
  intros Hne Hdigits Htem.
  assert (Hisdigit : PyChar.isdigit db id_text = true)
    by (unfold PyChar.isdigit; destruct id_text;
        [congruence | now apply isdigit_ascii_digits]).
  apply truthy_iff in Htem.
  split; intros Hlen.
  - destruct (int_from_ascii_digits id_text 0 Hdigits (Z.le_refl 0)) as (n & Hint & Hpos).
    assert (Hint' : PyChar.int db id_text = Some n).
    { unfold PyChar.int; destruct id_text; [congruence|].
      apply N.ltb_ge in Hlen. now rewrite Hlen. }
    exists n. split; [exact Hpos|]. split; [exact Hint'|].
    unfold track_ticket. rewrite (upper_ascii_digits id_text Hdigits), Hisdigit, Hint', Htem.
    destruct id_text as [|c s]; [congruence|]. simpl.
    destruct (public_track_ticket n tem) as [|r rest] eqn:Hrpc; simpl.
    + repeat split; discriminate.
    + repeat split; [discriminate|].
      intros r0 rest0 H; injection H as <- <-. eauto.
  - assert (Hint' : PyChar.int db id_text = None).
    { unfold PyChar.int; destruct id_text; [reflexivity|].
      apply N.ltb_lt in Hlen. now rewrite Hlen. }
    unfold track_ticket. rewrite (upper_ascii_digits id_text Hdigits), Hisdigit, Hint', Htem.
    destruct id_text as [|c s]; [congruence | reflexivity].
Qed.

(** X16: an ID that holds an ASCII letter, as the ids made for new
    tickets from hexadecimal digits usually do, is refused before any
    lookup: with an email given the page shows "Ticket ID must be a
    number." and the tracking function is not called. *)
Theorem track_refuses_letters
  (id_text : list PyChar.codepoint) (c : PyChar.codepoint) (tem : string) :
  In c id_text ->
  ascii_letter c = true ->
  tem <> EmptyString ->
  track_ticket db public_track_ticket id_text tem
  = mkTrackResult [] [Error "Ticket ID must be a number."].
Proof.
  intros Hin Hc Htem.
  destruct (isdigit_upper_with_letter id_text c Hin Hc) as [Hne Hall].
  unfold track_ticket, PyChar.isdigit.
  apply truthy_iff in Htem; rewrite Htem.
  destruct (PyChar.upper db id_text) as [|d s]; [congruence|].
  simpl in *. now rewrite Hall.
Qed.

End TrackMore.

Lemma track_ascii_digits_witness :
  exists n, (0 <= n)%Z
            /\ PyChar.int latin1_only [52; 50]%N = Some n
            /\ lookups (track_ticket latin1_only (fun _ _ => []) [52; 50]%N "a@x.com")
               = [(n, "a@x.com")].
Proof.
  destruct (track_ascii_digits latin1_only (fun _ _ => []) [52; 50]%N "a@x.com")
    as [Hshort _]; [discriminate | reflexivity | discriminate |].
  destruct Hshort as (n & H1 & H2 & H3 & _); [vm_compute; discriminate|].
  exists n; auto.
Defined.

Lemma track_refuses_letters_witness :
  track_ticket latin1_only (fun _ _ => []) [49; 65; 50; 66; 51; 67; 52; 68]%N "a@x.com"
  = mkTrackResult [] [Error "Ticket ID must be a number."].
Proof.
  apply (track_refuses_letters latin1_only (fun _ _ => [])
           [49; 65; 50; 66; 51; 67; 52; 68]%N 65%N "a@x.com");
    [right; left; reflexivity | reflexivity | discriminate].
Defined.

(** ** The log as it is drawn *)

Lemma replace_absent (old new s : string) :
  PyStr.contains old s = false -> PyStr.replace old new s = s.
Proof.
  unfold PyStr.replace; induction s as [|c s IH]; [reflexivity|].
  rewrite contains_unfold.
  destruct (String.prefix old (String c s)) eqn:Hp; [discriminate|].
  intros Hs. cbn [PyStr.replace_from]. rewrite Hp, IH by exact Hs. reflexivity.
Qed.

Lemma replace_system_prefix (message : string) :
  PyStr.contains system_marker message = false ->
  PyStr.replace system_marker "" (system_prefix ++ message) = (" " ++ message)%string.
Proof.
  intros Habsent.
  pose proof (replace_absent system_marker "" message Habsent) as H.
  unfold PyStr.replace in *. simpl. now rewrite H.
Qed.

(** X17: a system row is shown as it was logged: what [log_activity]
    writes for a message that does not itself hold the marker
    "⚙️ SYSTEM:" is drawn as one caption, gear, time, dash and the
    message, with the marker cut out and nothing else changed. *)
Theorem system_row_round_trip
  (fmt_time : Z -> string) (u : user) (e : env) (i message : string) (w : world) :
  PyStr.contains system_marker message = false ->
  exists n, notes_added w (log_activity u e i message w) = [n]
            /\ render_note fmt_time n
               = [Caption ("⚙️ " ++ fmt_time (now e) ++ " - " ++ " " ++ message);
                  Divider].
Proof.
  intros Habsent. eexists; split; [apply log_activity_added|].
  unfold render_note; cbn [note_text note_created_at].
  rewrite system_prefix_contains.
  change "⚙️ SYSTEM:" with system_marker.
  now rewrite replace_system_prefix.
Qed.

Lemma system_row_round_trip_witness :
  exists n, notes_added (run filed)
              (log_activity agent_user relay_up "1A2B3C4D" "Updated: Status: New → Open"
                 (run filed)) = [n]
            /\ render_note (fun _ => "03 Nov 17:26"%string) n
               = [Caption "⚙️ 03 Nov 17:26 -  Updated: Status: New → Open"; Divider].
Proof.
  exact (system_row_round_trip (fun _ => "03 Nov 17:26"%string) agent_user relay_up
           "1A2B3C4D" "Updated: Status: New → Open" (run filed) eq_refl).
Defined.

Lemma render_note_length (fmt_time : Z -> string) (n : note) :
  List.length (render_note fmt_time n) = 2.
Proof.
  unfold render_note.
  destruct (PyStr.contains "SYSTEM:" (note_text n)); [reflexivity|].
  destruct (PyStr.contains "EMAIL SENT" (note_text n)); reflexivity.
Qed.

Lemma flat_map_render_length (fmt_time : Z -> string) (ns : list note) :
  List.length (flat_map (render_note fmt_time) ns) = 2 * List.length ns.
Proof.
  induction ns as [|n ns IH]; [reflexivity|].
  cbn [flat_map]. rewrite length_app, render_note_length, IH. simpl; lia.
Qed.

(** X18: the log of a ticket shows the rows of that ticket and no
    others: it is the single caption "No history yet." exactly when no
    log row carries the ticket's id, and otherwise it holds two widgets
    (the entry and a divider) for each row that carries it. *)
Theorem render_log_own_rows (fmt_time : Z -> string) (t : ticket) (w : world) :
  let mine := filter (fun n => String.eqb (ticket_id n) (id t)) (ticket_notes w) in
  (render_log fmt_time t w = [Caption "No history yet."] <->
   forall n, In n (ticket_notes w) -> ticket_id n <> id t)
  /\ (mine <> [] -> List.length (render_log fmt_time t w) = 2 * List.length mine).
Proof.
  intros mine.
  assert (Hlen : List.length (order_desc note_created_at mine) = List.length mine)
    by (apply Permutation_length, order_desc_perm).
  assert (Hshape : mine <> [] ->
                   render_log fmt_time t w
                   = flat_map (render_note fmt_time) (order_desc note_created_at mine)).
  { intros Hne; unfold render_log; fold mine.
    destruct (order_desc note_created_at mine) eqn:Ho; [|reflexivity].
    destruct mine; [congruence | discriminate Hlen]. }
  assert (Hempty : mine = [] <-> forall n, In n (ticket_notes w) -> ticket_id n <> id t).
  { split.
    - intros Hnil n Hn Hid.
      assert (Hin : In n mine)
        by (apply filter_In; split; [exact Hn | now apply String.eqb_eq]).
      rewrite Hnil in Hin; exact Hin.
    - intros Hall. destruct mine as [|n ns] eqn:Hm; [reflexivity|].
      assert (Hin : In n mine) by (rewrite Hm; now left).
      apply filter_In in Hin as [Hn Hid]. apply String.eqb_eq in Hid.
      now destruct (Hall n Hn). }
  split.
  - rewrite <- Hempty. split.
    + intros Hrender. destruct mine as [|n ns] eqn:Hm; [reflexivity|].
      assert (Hne : n :: ns <> []) by discriminate.
      apply Hshape in Hne. rewrite Hne in Hrender.
      apply (f_equal (@List.length widget)) in Hrender.
      rewrite flat_map_render_length, Hlen in Hrender. simpl in Hrender; lia.
    + intros Hnil. unfold render_log; fold mine. now rewrite Hnil.
  - intros Hne. rewrite (Hshape Hne), flat_map_render_length, Hlen. reflexivity.
Qed.

Lemma render_log_own_rows_witness :
  filter (fun n => String.eqb (ticket_id n) (id closed_ticket))
    (ticket_notes (run filed_closed)) <> []
  /\ List.length (render_log (fun _ => EmptyString) closed_ticket (run filed_closed)) = 2.
Proof.
  split; [discriminate|].
  exact (proj2 (render_log_own_rows (fun _ => EmptyString) closed_ticket
                  (run filed_closed)) ltac:(discriminate)).
Defined.

(** ** The tiles of the dashboard *)

(** X19: the tiles are drawn exactly when the query returned rows; then
    the counts of New and of High tickets are at most the total, the
    total is at least one and at most the number of stored tickets, and
    for anybody who is not an agent it is the number of stored tickets. *)
Theorem dashboard_metrics_bounds (su : option user) (w : world) :
  (dashboard_metrics (dashboard_query su w) = None <-> dashboard_query su w = [])
  /\ forall new urgent total : nat,
       dashboard_metrics (dashboard_query su w) = Some (new, urgent, total) ->
       new <= total /\ urgent <= total /\ 1 <= total
       /\ total <= List.length (tickets w)
       /\ (is_agent su = false -> total = List.length (tickets w)).
Proof.
  split.
  - unfold dashboard_metrics. destruct (dashboard_query su w); split;
      solve [reflexivity | discriminate].
  - intros new urgent total. unfold dashboard_metrics.
    destruct (dashboard_query su w) as [|r rows] eqn:Hq; [discriminate|].
    intros H; injection H as <- <- <-.
    assert (Hlen : List.length (r :: rows)
                   = List.length (match su with
                                  | Some u =>
                                      if is_agent su
                                      then filter (unassigned_or_mine (user_email u))
                                             (tickets w)
                                      else tickets w
                                  | None => tickets w
                                  end))
      by (rewrite <- Hq; apply Permutation_length, order_desc_perm).
    cbn [List.length] in Hlen. repeat split.
    + exact (filter_length_le _ (r :: rows)).
    + exact (filter_length_le _ (r :: rows)).
    + lia.
    + rewrite Hlen. destruct su as [u|]; [|lia].
      destruct (is_agent (Some u)); [apply filter_length_le | lia].
    + intros Hagent. rewrite Hlen. destruct su as [u|]; [|reflexivity].
      now rewrite Hagent.
Qed.

Lemma dashboard_metrics_bounds_witness :
  dashboard_metrics (dashboard_query (Some agent_user) two_tickets) = Some (1, 1, 2)
  /\ 1 <= 2 /\ 1 <= 2 /\ 1 <= 2 /\ 2 <= List.length (tickets two_tickets).
Proof.
  split; [reflexivity|].
  destruct (proj2 (dashboard_metrics_bounds (Some agent_user) two_tickets) 1 1 2 eq_refl)
    as (H1 & H2 & H3 & H4 & _).
  auto.
Defined.

(** ** The reply tab *)

(** X20: a reply with a non-empty body is handed to the relay once, to
    the ticket's customer email, under the subject "Re: Ticket #<id>",
    with the body as typed.  If the relay accepts it, one log row holding
    the whole body is added and the page says "Sent!"; if the relay
    raises, no log row is added, one diagnostic line is printed and the
    page says "Failed.".  The table of tickets is not touched. *)
Theorem reply_outcomes
  (u : user) (e : env) (t : ticket) (f : form) (body : string) (w : world) :
  PyStr.truthy body = true ->
  let m := mkMail (email t) ("Re: Ticket #" ++ id t) body in
  let w' := fst (ticket_popup u e t f (SendEmail body) w) in
  let page := snd (ticket_popup u e t f (SendEmail body) w) in
  tickets w' = tickets w
  /\ match smtp e m with
     | None =>
         outbox w' = outbox w ++ [m]
         /\ stdout w' = stdout w
         /\ (exists n, notes_added w w' = [n] /\ ticket_id n = id t
                       /\ occurs_in body (note_text n))
         /\ page = [Success "Sent!"]
     | Some exn =>
         outbox w' = outbox w
         /\ stdout w' = stdout w ++ [("SMTP Error: " ++ exn)%string]
         /\ notes_added w w' = []
         /\ page = [Error "Failed."]
     end.
Proof.
  intros Hbody m w' page.
  split; [apply send_reply_tickets|].
  unfold w', page, m; simpl. unfold send_reply, send_email; rewrite Hbody.
  destruct (smtp e _) as [exn|]; simpl.
  - repeat split. now apply notes_added_none.
  - repeat split.
    eexists; split; [apply notes_added_app; reflexivity|].
    split; [reflexivity|].
    exists (system_prefix ++ "EMAIL SENT TO CUSTOMER:" ++ PyStr.nl)%string, EmptyString.
    simpl. now rewrite append_nil_r.
Qed.

Lemma reply_outcomes_witness :
  PyStr.truthy "Hello" = true
  /\ tickets (fst (ticket_popup agent_user relay_down filed_ticket (mkForm New Medium "")
                     (SendEmail "Hello") (run filed))) = tickets (run filed)
  /\ snd (ticket_popup agent_user relay_down filed_ticket (mkForm New Medium "")
            (SendEmail "Hello") (run filed)) = [Error "Failed."].
Proof.
  split; [reflexivity|]. split; [|reflexivity].
  exact (proj1 (reply_outcomes agent_user relay_down filed_ticket (mkForm New Medium "")
                  "Hello" (run filed) eq_refl)).
Defined.

(** X21: every entry of the template menu has a body, so the lookup
    never raises; the body is empty for the placeholder entry and for no
    other; and pressing Send Email on the empty body changes nothing and
    shows nothing, not even an error. *)
Theorem template_bodies (tmpl : string) (u : user) (e : env) (t : ticket) (w : world) :
  In tmpl (map fst CANNED_RESPONSES) ->
  exists body, body_val tmpl = Some body
               /\ (body = EmptyString <-> tmpl = "Select a template...")
               /\ (body = EmptyString -> send_reply u e t body w = (w, [])).
Proof.
  intros Hin. simpl in Hin.
  destruct Hin as [<-|[<-|[<-|[<-|[]]]]]; eexists; (split; [reflexivity|]);
    cbn [snd]; split;
    first [ split; intros H; discriminate H
          | intros H; discriminate H
          | split; reflexivity
          | reflexivity ].
Qed.

Lemma template_bodies_witness :
  exists body, body_val "Password Reset" = Some body
               /\ (body = EmptyString <-> "Password Reset" = "Select a template...")
               /\ (body = EmptyString ->
                   send_reply agent_user relay_up filed_ticket body (run filed)
                   = (run filed, [])).
Proof.
  apply (template_bodies "Password Reset" agent_user relay_up filed_ticket (run filed)).
  right; right; right; left; reflexivity.
Defined.

(** ** The email style *)

Lemma after_first_nl_app (first rest : string) :
  ~ occurs_in PyStr.nl first ->
  PyStr.after_first_nl (first ++ PyStr.nl ++ rest) = Some rest.
Proof.
  induction first as [|c first IH]; intros Hno; [reflexivity|].
  cbn [append PyStr.after_first_nl].
  destruct (Ascii.eqb_spec c (ascii_of_nat 10)) as [->|Hc].
  - exfalso; apply Hno. exists EmptyString, first; reflexivity.
  - apply IH. intros (b & a & ->). apply Hno.
    exists (String c b), a; reflexivity.
Qed.

(** X22: a log row drawn in the email style is shown without its first
    line: when "SYSTEM:" does not occur in the text, "EMAIL SENT" does,
    and the text is a first line, a newline and a rest, the bubble holds
    the rest only, under the heading "Email Out" with the time. *)
Theorem email_style_drops_first_line
  (fmt_time : Z -> string) (n : note) (first rest : string) :
  note_text n = (first ++ PyStr.nl ++ rest)%string ->
  ~ occurs_in PyStr.nl first ->
  ~ occurs_in "SYSTEM:" (note_text n) ->
  occurs_in "EMAIL SENT" (note_text n) ->
  render_note fmt_time n
  = [ChatMessage "assistant"
       ("**Email Out (" ++ fmt_time (note_created_at n) ++ "):**") rest;
     Divider].
Proof.
  intros Htext Hfirst Hsys Hmail. unfold render_note.
  destruct (PyStr.contains "SYSTEM:" (note_text n)) eqn:Hs;
    [apply contains_iff in Hs; contradiction|].
  apply contains_iff in Hmail; rewrite Hmail.
  rewrite Htext, after_first_nl_app by exact Hfirst. reflexivity.
Qed.

Lemma email_style_drops_first_line_witness :
  render_note (fun _ => "03 Nov 17:26"%string)
    (mkNote "1A2B3C4D" ("EMAIL SENT by phone" ++ PyStr.nl ++ "asked for logs")
       (Some "agent@example.com") 5)
  = [ChatMessage "assistant" "**Email Out (03 Nov 17:26):**" "asked for logs"; Divider].
Proof.
  apply (email_style_drops_first_line (fun _ => "03 Nov 17:26"%string)
           (mkNote "1A2B3C4D" ("EMAIL SENT by phone" ++ PyStr.nl ++ "asked for logs")
              (Some "agent@example.com") 5)
           "EMAIL SENT by phone" "asked for logs").
  - reflexivity.
  - intros H; apply contains_iff in H; discriminate H.
  - intros H; apply contains_iff in H; discriminate H.
  - exists EmptyString, (" by phone" ++ PyStr.nl ++ "asked for logs")%string; reflexivity.
Defined.

(** ** The resolution in the log *)

Lemma ticket_popup_summary (u : user) (e : env) (t : ticket) (f : form)
  (b : button) (w : world) (r' : ticket) :
  In r' (tickets (fst (ticket_popup u e t f b w))) ->
  (exists r, In r (tickets w) /\ id r' = id r
             /\ resolution_summary r' = resolution_summary r)
  \/ (exists text,
         resolution_summary r' = Some text /\ id r' = id t
         /\ In (mkNote (id t) (system_prefix ++ "Ticket Closed. Resolution: " ++ text)
                  (Some (user_email u)) (now e))
              (ticket_notes (fst (ticket_popup u e t f b w)))).
Proof.
  assert (Hsame : In r' (tickets w) ->
            (exists r, In r (tickets w) /\ id r' = id r
                       /\ resolution_summary r' = resolution_summary r)
            \/ (exists text,
                   resolution_summary r' = Some text /\ id r' = id t
                   /\ In (mkNote (id t)
                            (system_prefix ++ "Ticket Closed. Resolution: " ++ text)
                            (Some (user_email u)) (now e))
                        (ticket_notes (fst (ticket_popup u e t f b w)))))
    by (intros H; left; exists r'; auto).
  destruct b as [text|new_note|body]; cbn [ticket_popup].
  - destruct (closing t f) eqn:Hc; [|cbn [ticket_popup] in Hsame; rewrite Hc in Hsame; exact Hsame].
    unfold close_and_resolve.
    destruct (PyStr.truthy text) eqn:Htext;
      [|cbn [ticket_popup] in Hsame; rewrite Hc in Hsame;
        unfold close_and_resolve in Hsame; rewrite Htext in Hsame; exact Hsame].
    cbn [fst]. rewrite send_email_tickets, send_email_notes. simpl.
    intros Hin. unfold update_where_id in Hin.
    apply in_map_iff in Hin as (r & <- & Hr).
    destruct (String.eqb (id r) (id t)) eqn:Hid.
    + right; exists text. apply String.eqb_eq in Hid. simpl.
      repeat split; [exact Hid|]. apply in_or_app; right; left; reflexivity.
    + left; exists r; auto.
  - destruct (closing t f) eqn:Hc; [cbn [ticket_popup] in Hsame; rewrite Hc in Hsame; exact Hsame|].
    rewrite save_changes_tickets. intros Hin. unfold update_where_id in Hin.
    apply in_map_iff in Hin as (r & <- & Hr).
    left; exists r. destruct (String.eqb (id r) (id t)); auto.
  - rewrite send_reply_tickets. intros Hin. left; exists r'; auto.
Qed.

Lemma step_resolution_logged (w : world) (ev : event) :
  resolution_logged w -> resolution_logged (step w ev).
Proof.
  unfold resolution_logged; intros Hinv r' s Hr' Hs.
  destruct (step_notes_app w ev) as (ns & Hns & _).
  assert (Hold : forall r, In r (tickets w) -> id r' = id r ->
                           resolution_summary r' = resolution_summary r ->
                           exists n, In n (ticket_notes (step w ev))
                                     /\ ticket_id n = id r'
                                     /\ note_text n
                                        = (system_prefix ++ "Ticket Closed. Resolution: "
                                           ++ s)%string).
  { intros r Hr Hid Hsum. rewrite Hs in Hsum.
    destruct (Hinv r s Hr (eq_sym Hsum)) as (n & Hn & Hnid & Hntext).
    exists n; rewrite Hns; repeat split; [apply in_or_app; now left | congruence | exact Hntext]. }
  destruct ev as [e t_id name mail_addr cat pri msg | u e row f b]; cbn [step] in *.
  - destruct (new_ticket_shape e t_id name mail_addr cat pri msg w)
      as (_ & [[Ht _] | (_ & Ht & _)]); cbn zeta in Ht; rewrite Ht in Hr'.
    + now apply (Hold r').
    + apply in_app_or in Hr' as [Hr'|[<-|[]]]; [now apply (Hold r')|].
      discriminate Hs.
  - destruct (is_staff (Some u)); [|now apply (Hold r')].
    destruct (nth_error (dashboard_query (Some u) w) row) as [t0|]; [|now apply (Hold r')].
    destruct (ticket_popup_summary u e t0 f b w r' Hr')
      as [(r & Hr & Hid & Hsum) | (text & Hsum & Hid & Hn)].
    + now apply (Hold r).
    + eexists; split; [exact Hn|]. simpl. split; [now symmetry|]. congruence.
Qed.

(** X23: every stored resolution is in the log: in every run, when a
    ticket holds a resolution summary, the log holds a row of that ticket
    whose text is the system prefix, "Ticket Closed. Resolution: " and
    that very summary. *)
Theorem stored_resolution_is_logged (evs : list event) (t : ticket) (s : string) :
  In t (tickets (run evs)) ->
  resolution_summary t = Some s ->
  exists n, In n (ticket_notes (run evs))
            /\ ticket_id n = id t
            /\ note_text n = (system_prefix ++ "Ticket Closed. Resolution: " ++ s)%string.
Proof.
  revert t s. change (resolution_logged (run evs)). unfold run.
  assert (H0 : resolution_logged empty_world) by (intros t s []).
  revert H0; generalize empty_world.
  induction evs as [|ev evs IH]; intros w Hinv; simpl; [exact Hinv|].
  apply IH, step_resolution_logged, Hinv.
Qed.

Lemma stored_resolution_is_logged_witness :
  exists n, In n (ticket_notes (run filed_closed_reopened))
            /\ ticket_id n = id reopened_ticket
            /\ note_text n = "⚙️ SYSTEM: Ticket Closed. Resolution: fixed".
Proof.
  apply (stored_resolution_is_logged filed_closed_reopened reopened_ticket "fixed");
    [left; reflexivity | reflexivity].
Defined.
